(** * ComputeHive Python SDK: a shallow embedding of [computehive/client.py]

    The client wraps a remote HTTP API.  Everything the SDK does is either
    pure construction of JSON-like dictionaries (dataclasses and their
    [to_dict]), or an effect on the outside world: reading the process
    environment, reading the wall clock, sleeping, printing, and exchanging
    HTTP messages through a [requests.Session] whose adapter carries a
    [urllib3] retry policy.  Effects are modelled by explicit state passing
    over a [World]; Python exceptions by a [result] type. *)

From Stdlib Require Import ZArith List String Ascii Bool Lia PrimFloat DecimalString.
From stdpp Require Import base option gmap strings.

Open Scope string_scope.
Open Scope list_scope.
Open Scope Z_scope.

(** ** Python values *)

(** JSON-like Python values: what [response.json()] returns and what request
    bodies and query maps hold.  A [dict] keeps insertion order, so it is an
    association list (keys are kept unique by [dict_set]). *)
#[local] Unset Elimination Schemes.
Inductive value : Type :=
| VNone
| VBool (b : bool)
| VInt (n : Z)
| VFloat (x : float)
| VStr (s : string)
| VList (l : list value)
| VDict (d : list (string * value)).
#[local] Set Elimination Schemes.

Abbreviation dict := (list (string * value)).

(** Python truthiness, [bool(v)]. *)
Definition truthy (v : value) : bool :=
  match v with
  | VNone => false
  | VBool b => b
  | VInt n => negb (n =? 0)
  | VFloat x => negb (PrimFloat.eqb x 0%float)
  | VStr s => negb (String.eqb s "")
  | VList l => negb (Nat.eqb (length l) 0)
  | VDict d => negb (Nat.eqb (length d) 0)
  end.

(** [is_none v] is the test [v is None]. *)
Definition is_none (v : value) : bool :=
  match v with VNone => true | _ => false end.

(** [d.get(k)] on the entries of a dict: the bound value, if any. *)
Fixpoint dict_get (d : dict) (k : string) : option value :=
  match d with
  | [] => None
  | (k', v) :: d' => if String.eqb k' k then Some v else dict_get d' k
  end.

(** [d[k] = v]: overwrite in place, or append a new key at the end. *)
Fixpoint dict_set (d : dict) (k : string) (v : value) : dict :=
  match d with
  | [] => [(k, v)]
  | (k', v') :: d' =>
      if String.eqb k' k then (k', v) :: d' else (k', v') :: dict_set d' k v
  end.

(** [{k: v for k, v in data.items() if v is not None}] *)
Definition drop_none (data : dict) : dict :=
  List.filter (fun kv => negb (is_none (snd kv))) data.

(** [v == s] for a string literal [s]: only a [str] equals a [str]. *)
Definition eq_str (v : value) (s : string) : bool :=
  match v with VStr t => String.eqb t s | _ => false end.

(** Decimal rendering of a Python [int], as [str(n)] and f-strings give. *)
Definition str_of_int (n : Z) : string := NilZero.string_of_int (Z.to_int n).

(** Optional values the way the client uses them. *)
Definition of_opt {A} (inj : A -> value) (o : option A) : value :=
  match o with Some a => inj a | None => VNone end.

Definition VStrs (l : list string) : value := VList (map VStr l).

(** ** Exceptions and the effect monad *)

Inductive exn : Type :=
| ComputeHiveError (msg : string)
| AuthenticationError (msg : string)
| JobError (msg : string)
| AttributeError (msg : string)
| KeyError (key : string)
| TypeError (msg : string)
| ValueError (msg : string)
| UserError (tag : string).

Inductive result (A : Type) : Type :=
| Ok (a : A)
| Raise (e : exn).
Arguments Ok {A} a.
Arguments Raise {A} e.

(** [job.get(k)]: a method of dicts only; a missing key gives [None]. *)
Definition py_get (v : value) (k : string) : result value :=
  match v with
  | VDict d => Ok (default VNone (dict_get d k))
  | _ => Raise (AttributeError "object has no attribute 'get'")
  end.

(** [job[k]] with a string key. *)
Definition py_subscript (v : value) (k : string) : result value :=
  match v with
  | VDict d =>
      match dict_get d k with
      | Some x => Ok x
      | None => Raise (KeyError k)
      end
  | _ => Raise (TypeError "indices must be integers or the object is not subscriptable")
  end.

(** ** The HTTP library as the client configures it

    [requests] and [urllib3] are third-party packages, not part of this
    repository.  The definitions of this module follow their documented
    behaviour for the one configuration the client builds in [__init__]
    ([Retry(total=max_retries, backoff_factor=1, status_forcelist=[...])]
    mounted through an [HTTPAdapter]); every other [Retry] parameter keeps
    the library default.  Redirects and read errors are not modelled: a
    [reply] is what one exchange with the server finally yields.  Neither
    is the preparation of the URL, which refuses a URL without scheme or
    host before anything is sent: the statements about what a call puts on
    the wire say where they depend on this. *)
Module Http.

Record Request := {
  method : string;
  url : string;
  headers : list (string * string);
  json : option value;
  params : option dict;
  req_timeout : Z
}.

Record Response := {
  status_code : Z;
  reason : string;
  text : string;
  (** the decoded body, [None] when the body is not valid JSON *)
  body : option value;
  (** the [Retry-After] header in seconds, when the server sent one *)
  retry_after : option Z
}.

Inductive reply : Type :=
| Answer (r : Response)
| ConnectFailure (msg : string).

(** The classes of [requests.exceptions] that can reach [_make_request].
    All derive from [RequestException]; only [HTTPError] is an
    [HTTPError]. *)
Inductive RequestException : Type :=
| HTTPError (msg : string) (response : Response)
| ConnectionError (msg : string)
| RetryError (msg : string)
| JSONDecodeError (msg : string).

Definition str_of_exception (e : RequestException) : string :=
  match e with
  | HTTPError msg _ => msg
  | ConnectionError msg => msg
  | RetryError msg => msg
  | JSONDecodeError msg => msg
  end.

(** [urllib3.util.retry.Retry]: the fields that matter here. *)
Record Retry := {
  total : Z;
  backoff_factor : Z;
  status_forcelist : list Z;
  allowed_methods : list string;
  raise_on_status : bool;
  respect_retry_after_header : bool;
  backoff_max : Z;
  (** number of errors recorded so far ([len(history)]) *)
  history : nat
}.

Definition DEFAULT_ALLOWED_METHODS : list string :=
  ["HEAD"; "GET"; "PUT"; "DELETE"; "OPTIONS"; "TRACE"].
Definition RETRY_AFTER_STATUS_CODES : list Z := [413; 429; 503].
Definition DEFAULT_BACKOFF_MAX : Z := 120.

(** [Retry(total=..., backoff_factor=..., status_forcelist=...)] *)
Definition Retry_new (total backoff_factor : Z) (status_forcelist : list Z) : Retry :=
  {| total := total;
     backoff_factor := backoff_factor;
     status_forcelist := status_forcelist;
     allowed_methods := DEFAULT_ALLOWED_METHODS;
     raise_on_status := true;
     respect_retry_after_header := true;
     backoff_max := DEFAULT_BACKOFF_MAX;
     history := 0%nat |}.

Definition mem_Z (x : Z) (l : list Z) : bool := existsb (Z.eqb x) l.
Definition mem_str (x : string) (l : list string) : bool := existsb (String.eqb x) l.

Definition is_method_retryable (r : Retry) (m : string) : bool :=
  match allowed_methods r with
  | [] => true
  | ms => mem_str m ms
  end.

(** [Retry.is_retry(method, status_code, has_retry_after)] *)
Definition is_retry (r : Retry) (m : string) (status : Z) (has_retry_after : bool) : bool :=
  if negb (is_method_retryable r m) then false
  else if mem_Z status (status_forcelist r) then true
  else negb (total r =? 0) && respect_retry_after_header r && has_retry_after
       && mem_Z status RETRY_AFTER_STATUS_CODES.

(** [Retry.increment]: one more error on the record; [None] when the
    budget is exhausted ([MaxRetryError]). *)
Definition increment (r : Retry) : option Retry :=
  let total' := total r - 1 in
  if total' <? 0 then None
  else Some {| total := total';
               backoff_factor := backoff_factor r;
               status_forcelist := status_forcelist r;
               allowed_methods := allowed_methods r;
               raise_on_status := raise_on_status r;
               respect_retry_after_header := respect_retry_after_header r;
               backoff_max := backoff_max r;
               history := S (history r) |}.

(** [Retry.get_backoff_time]: nothing before the second consecutive
    error, then [backoff_factor * 2 ** (errors - 1)] capped by
    [backoff_max]. *)
Definition get_backoff_time (r : Retry) : Z :=
  if (history r <=? 1)%nat then 0
  else Z.max 0 (Z.min (backoff_max r)
                      (backoff_factor r * 2 ^ (Z.of_nat (history r) - 1))).

(** [Response.raise_for_status]: the [HTTPError] raised for 4xx and 5xx. *)
Definition raise_for_status (u : string) (r : Response) : option RequestException :=
  let code := status_code r in
  if (400 <=? code) && (code <? 500) then
    Some (HTTPError (str_of_int code +:+ " Client Error: " +:+ reason r +:+ " for url: " +:+ u) r)
  else if (500 <=? code) && (code <? 600) then
    Some (HTTPError (str_of_int code +:+ " Server Error: " +:+ reason r +:+ " for url: " +:+ u) r)
  else None.

Record Session := {
  session_headers : list (string * string);
  (** the [Retry] of the adapter mounted on [http://] and [https://] *)
  max_retries : Retry
}.

End Http.
Export Http.

(** ** The outside world *)

Inductive event : Type :=
| EvSession (retries : Retry)      (* [requests.Session()] created, adapter mounted *)
| EvHttp (req : Request)           (* one exchange put on the wire *)
| EvSleep (seconds : Z)            (* [time.sleep] *)
| EvCallback (job : value)         (* the progress callback was called *)
| EvPrint (line : string).         (* [print] *)

(** The world a client call runs in.  Clock readings and durations are
    integers in the unit of [timeout] and [poll_interval] (seconds).  The
    remote platform is a function of the exchange number and the request,
    giving the reply and the time the exchange took. *)
Record World := {
  now : Z;
  environ : gmap string string;
  server : nat -> Request -> reply * Z;
  sent : nat;
  trace : list event
}.

Definition M (A : Type) : Type := World -> result A * World.

Definition ret {A} (a : A) : M A := fun w => (Ok a, w).
Definition raise {A} (e : exn) : M A := fun w => (Raise e, w).
Definition bind {A B} (m : M A) (k : A -> M B) : M B :=
  fun w => match m w with
           | (Ok a, w') => k a w'
           | (Raise e, w') => (Raise e, w')
           end.
Definition lift {A} (r : result A) : M A := fun w => (r, w).

Notation "x <- m ;; k" := (bind m (fun x => k))
  (at level 100, m at next level, right associativity).
Notation "m ;;; k" := (bind m (fun _ => k))
  (at level 100, right associativity).

Definition emit (e : event) (w : World) : World :=
  {| now := now w; environ := environ w; server := server w;
     sent := sent w; trace := trace w ++ [e] |}.

Definition tick (d : Z) (w : World) : World :=
  {| now := now w + d; environ := environ w; server := server w;
     sent := sent w; trace := trace w |}.

(** [time.time()] *)
Definition time_time : M Z := fun w => (Ok (now w), w).

(** [time.sleep(d)]: a negative length is a [ValueError]. *)
Definition time_sleep (d : Z) : M unit := fun w =>
  if d <? 0 then (Raise (ValueError "sleep length must be non-negative"), w)
  else (Ok tt, tick d (emit (EvSleep d) w)).

(** [os.getenv(k)] *)
Definition os_getenv (k : string) : M (option string) :=
  fun w => (Ok (environ w !! k), w).

(** [print(line)] *)
Definition print (line : string) : M unit := fun w => (Ok tt, emit (EvPrint line) w).

(** ** The session: one logical request, with the adapter's retries *)

Module Session.

(** One exchange with the remote platform: the request goes on the wire,
    the server's reply for this exchange number comes back, and the clock
    moves by the time the exchange took. *)
Definition exchange (req : Request) (w : World) : reply * World :=
  let '(rep, dt) := server w (sent w) req in
  (rep, {| now := now w + dt; environ := environ w; server := server w;
           sent := S (sent w); trace := trace w ++ [EvHttp req] |}).

Definition lib_sleep (d : Z) (w : World) : World := tick d (emit (EvSleep d) w).

(** [Retry.sleep(response)]: honour [Retry-After] when present and
    non-zero, otherwise back off; a zero back-off does not sleep. *)
Definition retry_sleep (r : Retry) (ra : option Z) (w : World) : World :=
  let backoff w := let b := get_backoff_time r in if b <=? 0 then w else lib_sleep b w in
  match ra with
  | Some s =>
      if respect_retry_after_header r && negb (Z.max s 0 =? 0)
      then lib_sleep (Z.max s 0) w else backoff w
  | None => backoff w
  end.

Definition too_many (status : Z) (u : string) : string :=
  "Max retries exceeded with url: " +:+ u +:+
  " (Caused by ResponseError('too many " +:+ str_of_int status +:+ " error responses'))".

Definition unreachable (msg u : string) : string :=
  "Max retries exceeded with url: " +:+ u +:+ " (Caused by " +:+ msg +:+ ")".

(** [HTTPConnectionPool.urlopen] under [HTTPAdapter.send]: repeat the
    exchange while the retry policy asks for it.  [fuel] bounds the
    number of repetitions; [Z.to_nat (total retries)] is enough, since
    every repetition lowers [total] by one and [increment] refuses to go
    below zero. *)
Fixpoint urlopen (fuel : nat) (retries : Retry) (req : Request) (w : World)
  : (Response + RequestException) * World :=
  let '(rep, w1) := exchange req w in
  match rep with
  | ConnectFailure msg =>
      match increment retries, fuel with
      | Some retries', S fuel' =>
          urlopen fuel' retries' req (retry_sleep retries' None w1)
      | _, _ => (inr (ConnectionError (unreachable msg (url req))), w1)
      end
  | Answer r =>
      if is_retry retries (method req) (status_code r) (bool_decide (is_Some (retry_after r)))
      then
        match increment retries, fuel with
        | Some retries', S fuel' =>
            urlopen fuel' retries' req (retry_sleep retries' (retry_after r) w1)
        | _, _ =>
            if raise_on_status retries
            then (inr (RetryError (too_many (status_code r) (url req))), w1)
            else (inl r, w1)
        end
      else (inl r, w1)
  end.

(** [Session.request(method, url, json, params, timeout)] *)
Definition request (s : Session) (m u : string) (data : option value)
    (q : option dict) (t : Z) (w : World) : (Response + RequestException) * World :=
  let req := {| method := m; url := u; headers := session_headers s;
                json := data; params := q; req_timeout := t |} in
  urlopen (Z.to_nat (total (max_retries s))) (max_retries s) req w.

End Session.

(** ** The client *)

Inductive JobType := DOCKER | BINARY | SCRIPT | WASM.

Definition JobType_value (t : JobType) : string :=
  match t with
  | DOCKER => "docker"
  | BINARY => "binary"
  | SCRIPT => "script"
  | WASM => "wasm"
  end.

Inductive JobStatus := PENDING | SCHEDULED | RUNNING | COMPLETED | FAILED | CANCELLED.

Definition JobStatus_value (s : JobStatus) : string :=
  match s with
  | PENDING => "pending"
  | SCHEDULED => "scheduled"
  | RUNNING => "running"
  | COMPLETED => "completed"
  | FAILED => "failed"
  | CANCELLED => "cancelled"
  end.

Record ComputeHiveClient := {
  api_url : string;
  api_key : string;
  session : Session;
  timeout : Z
}.

(** [a or b] on optional strings: [a] when it is truthy (a non-empty
    string), else [b]. *)
Definition or_str (a b : option string) : option string :=
  match a with
  | Some s => if String.eqb s "" then b else Some s
  | None => b
  end.

Definition RETRY_STATUSES : list Z := [429; 500; 502; 503; 504].

Definition missing_key_message : string :=
  "API key is required. Set COMPUTEHIVE_API_KEY environment variable or pass api_key parameter.".

(** [ComputeHiveClient.__init__(api_url=None, api_key=None, timeout=30,
    max_retries=3)].  The session headers are the three the constructor
    sets; the defaults a fresh [requests.Session] adds are left out. *)
Definition __init__ (api_url api_key : option string) (timeout max_retries : option Z)
  : M ComputeHiveClient :=
  env_url <- os_getenv "COMPUTEHIVE_API_URL" ;;
  let api_url := default (default "https://api.computehive.io" env_url)
                         (or_str api_url None) in
  env_key <- os_getenv "COMPUTEHIVE_API_KEY" ;;
  let api_key := or_str api_key env_key in
  match api_key with
  | None | Some EmptyString => raise (AuthenticationError missing_key_message)
  | Some key =>
      let retry_strategy := Retry_new (default 3 max_retries) 1 RETRY_STATUSES in
      fun w =>
        (Ok {| api_url := api_url;
               api_key := key;
               session := {| session_headers :=
                               [("Authorization", "Bearer " +:+ key);
                                ("Content-Type", "application/json");
                                ("User-Agent", "ComputeHive-Python-SDK/1.0.0")];
                             max_retries := retry_strategy |};
               timeout := default 30 timeout |},
         emit (EvSession retry_strategy) w)
  end.

(** [ComputeHiveClient._make_request(method, endpoint, data=None, params=None)] *)
Definition _make_request (self : ComputeHiveClient) (m endpoint : string)
    (data : option value) (q : option dict) : M value :=
  let u := api_url self +:+ endpoint in
  fun w =>
    let '(r, w1) := Session.request (session self) m u data q (timeout self) w in
    let attempt : value + RequestException :=
      match r with
      | inl response =>
          match raise_for_status u response with
          | Some e => inr e
          | None =>
              match body response with
              | Some v => inl v
              | None => inr (JSONDecodeError "Expecting value")
              end
          end
      | inr e => inr e
      end in
    match attempt with
    | inl v => (Ok v, w1)
    | inr (HTTPError msg response) =>
        if status_code response =? 401 then
          (Raise (AuthenticationError "Invalid API key or authentication failed"), w1)
        else if status_code response =? 400 then
          (Raise (ComputeHiveError ("Bad request: " +:+ text response)), w1)
        else
          (Raise (ComputeHiveError ("API request failed: " +:+ msg)), w1)
    | inr e =>
        (Raise (ComputeHiveError ("Network error: " +:+ str_of_exception e)), w1)
    end.

(** ** Dataclasses and their wire form *)

Module ResourceRequirements.
Record t := {
  cpu_cores : Z;
  memory_mb : Z;
  gpu_count : Z;
  gpu_type : option string;
  storage_mb : Z;
  network_mbps : Z;
  trusted_exec : bool;
  capabilities : option (list string)
}.

(** The constructor with the dataclass defaults. *)
Definition make (cpu_cores memory_mb : Z) (gpu_count : option Z) : t :=
  {| cpu_cores := cpu_cores; memory_mb := memory_mb;
     gpu_count := default 0 gpu_count; gpu_type := None;
     storage_mb := 1024; network_mbps := 100;
     trusted_exec := false; capabilities := None |}.

Definition asdict (r : t) : dict :=
  [("cpu_cores", VInt (cpu_cores r));
   ("memory_mb", VInt (memory_mb r));
   ("gpu_count", VInt (gpu_count r));
   ("gpu_type", of_opt VStr (gpu_type r));
   ("storage_mb", VInt (storage_mb r));
   ("network_mbps", VInt (network_mbps r));
   ("trusted_exec", VBool (trusted_exec r));
   ("capabilities", of_opt VStrs (capabilities r))].

Definition to_dict (r : t) : dict := drop_none (asdict r).
End ResourceRequirements.

Module SLARequirements.
Record t := {
  max_latency_ms : option Z;
  min_availability : option float;
  max_cost_per_hour : option float;
  preferred_regions : option (list string)
}.

Definition asdict (r : t) : dict :=
  [("max_latency_ms", of_opt VInt (max_latency_ms r));
   ("min_availability", of_opt VFloat (min_availability r));
   ("max_cost_per_hour", of_opt VFloat (max_cost_per_hour r));
   ("preferred_regions", of_opt VStrs (preferred_regions r))].

Definition to_dict (r : t) : dict := drop_none (asdict r).
End SLARequirements.

Module JobPayload.
Record t := {
  image : option string;
  command : option (list string);
  env : option (list string);
  binary_url : option string;
  args : option (list string);
  script : option string;
  language : option string;
  input_data : option string;
  output_path : option string
}.

(** [JobPayload()]: every field defaults to [None]. *)
Definition empty : t :=
  {| image := None; command := None; env := None; binary_url := None;
     args := None; script := None; language := None;
     input_data := None; output_path := None |}.

Definition asdict (p : t) : dict :=
  [("image", of_opt VStr (image p));
   ("command", of_opt VStrs (command p));
   ("env", of_opt VStrs (env p));
   ("binary_url", of_opt VStr (binary_url p));
   ("args", of_opt VStrs (args p));
   ("script", of_opt VStr (script p));
   ("language", of_opt VStr (language p));
   ("input_data", of_opt VStr (input_data p));
   ("output_path", of_opt VStr (output_path p))].

Definition to_dict (p : t) : dict := drop_none (asdict p).
End JobPayload.

(** ** API surface *)

(** The keyword arguments [submit_job] accepts after the three positional
    ones; [None] stands for an argument left out. *)
Record SubmitKwargs := {
  kw_priority : option Z;
  kw_timeout : option Z;
  kw_max_retries : option Z;
  kw_sla_requirements : option SLARequirements.t
}.

Definition no_kwargs : SubmitKwargs :=
  {| kw_priority := None; kw_timeout := None; kw_max_retries := None;
     kw_sla_requirements := None |}.

(** The dictionary [data] that [submit_job] builds. *)
Definition submit_job_data (job_type : JobType) (requirements : ResourceRequirements.t)
    (payload : JobPayload.t) (kw : SubmitKwargs) : dict :=
  let data :=
    [("type", VStr (JobType_value job_type));
     ("requirements", VDict (ResourceRequirements.to_dict requirements));
     ("payload", VDict (JobPayload.to_dict payload));
     ("priority", VInt (default 5 (kw_priority kw)));
     ("timeout", VInt (default 3600 (kw_timeout kw)));
     ("max_retries", VInt (default 3 (kw_max_retries kw)))] in
  match kw_sla_requirements kw with
  | Some sla => dict_set data "sla_requirements" (VDict (SLARequirements.to_dict sla))
  | None => data
  end.

Definition submit_job (self : ComputeHiveClient) (job_type : JobType)
    (requirements : ResourceRequirements.t) (payload : JobPayload.t)
    (kw : SubmitKwargs) : M value :=
  _make_request self "POST" "/api/v1/jobs"
    (Some (VDict (submit_job_data job_type requirements payload kw))) None.

Definition get_job (self : ComputeHiveClient) (job_id : string) : M value :=
  _make_request self "GET" ("/api/v1/jobs/" +:+ job_id) None None.

Definition list_jobs (self : ComputeHiveClient) (status : option JobStatus)
    (limit offset : option Z) : M value :=
  let params := [("limit", VInt (default 100 limit)); ("offset", VInt (default 0 offset))] in
  let params :=
    match status with
    | Some s => dict_set params "status" (VStr (JobStatus_value s))
    | None => params
    end in
  _make_request self "GET" "/api/v1/jobs" None (Some params).

Definition cancel_job (self : ComputeHiveClient) (job_id : string) : M unit :=
  _make_request self "POST" ("/api/v1/jobs/" +:+ job_id +:+ "/cancel") None None ;;;
  ret tt.

Definition get_job_result (self : ComputeHiveClient) (job_id : string) : M value :=
  _make_request self "GET" ("/api/v1/jobs/" +:+ job_id +:+ "/result") None None.

Definition get_job_logs (self : ComputeHiveClient) (job_id : string) (tail : option Z)
  : M value :=
  response <- _make_request self "GET" ("/api/v1/jobs/" +:+ job_id +:+ "/logs") None
                (Some [("tail", VInt (default 100 tail))]) ;;
  match response with
  | VDict d => ret (default (VStr "") (dict_get d "logs"))
  | _ => raise (AttributeError "object has no attribute 'get'")
  end.

(** The query map [params] that [get_marketplace_offers] builds: each
    argument is tested for truthiness ([if min_cpu:]). *)
Definition marketplace_params (min_cpu min_memory : option Z) (max_price : option float)
    (region : option string) : dict :=
  let params := [] in
  let params := if truthy (of_opt VInt min_cpu)
                then dict_set params "min_cpu" (of_opt VInt min_cpu) else params in
  let params := if truthy (of_opt VInt min_memory)
                then dict_set params "min_memory" (of_opt VInt min_memory) else params in
  let params := if truthy (of_opt VFloat max_price)
                then dict_set params "max_price" (of_opt VFloat max_price) else params in
  let params := if truthy (of_opt VStr region)
                then dict_set params "region" (of_opt VStr region) else params in
  params.

Definition get_marketplace_offers (self : ComputeHiveClient) (min_cpu min_memory : option Z)
    (max_price : option float) (region : option string) : M value :=
  _make_request self "GET" "/api/v1/marketplace/offers" None
    (Some (marketplace_params min_cpu min_memory max_price region)).

Definition get_agents (self : ComputeHiveClient) (active_only : option bool) : M value :=
  _make_request self "GET" "/api/v1/agents" None
    (Some [("active", VBool (default true active_only))]).

Definition get_agent (self : ComputeHiveClient) (agent_id : string) : M value :=
  _make_request self "GET" ("/api/v1/agents/" +:+ agent_id) None None.

Definition get_billing_info (self : ComputeHiveClient) : M value :=
  _make_request self "GET" "/api/v1/billing" None None.

Definition get_usage_stats (self : ComputeHiveClient) (start_date end_date : option string)
  : M value :=
  let params := [] in
  let params := if truthy (of_opt VStr start_date)
                then dict_set params "start_date" (of_opt VStr start_date) else params in
  let params := if truthy (of_opt VStr end_date)
                then dict_set params "end_date" (of_opt VStr end_date) else params in
  _make_request self "GET" "/api/v1/stats/usage" None (Some params).

(** ** Convenience layer: submission shapes *)

(** [[f"{k}={v}" for k, v in (env or {}).items()]] *)
Definition env_list (env : option (list (string * string))) : list string :=
  map (fun kv => fst kv +:+ "=" +:+ snd kv) (default [] env).

Definition docker_payload (image : string) (command : list string)
    (env : option (list (string * string))) : JobPayload.t :=
  {| JobPayload.image := Some image;
     JobPayload.command := Some command;
     JobPayload.env := Some (env_list env);
     JobPayload.binary_url := None; JobPayload.args := None;
     JobPayload.script := None; JobPayload.language := None;
     JobPayload.input_data := None; JobPayload.output_path := None |}.

(** [submit_docker_job(image, command, cpu_cores=1, memory_mb=1024,
    gpu_count=0, env=None, **kwargs)] *)
Definition submit_docker_job (self : ComputeHiveClient) (image : string)
    (command : list string) (cpu_cores memory_mb gpu_count : option Z)
    (env : option (list (string * string))) (kwargs : SubmitKwargs) : M value :=
  let requirements :=
    ResourceRequirements.make (default 1 cpu_cores) (default 1024 memory_mb)
                              (Some (default 0 gpu_count)) in
  let payload := docker_payload image command env in
  submit_job self DOCKER requirements payload kwargs.

(** [submit_script_job(script, language, cpu_cores=1, memory_mb=1024, **kwargs)] *)
Definition submit_script_job (self : ComputeHiveClient) (script language : string)
    (cpu_cores memory_mb : option Z) (kwargs : SubmitKwargs) : M value :=
  let requirements :=
    ResourceRequirements.make (default 1 cpu_cores) (default 1024 memory_mb) None in
  let payload :=
    {| JobPayload.image := None; JobPayload.command := None; JobPayload.env := None;
       JobPayload.binary_url := None; JobPayload.args := None;
       JobPayload.script := Some script; JobPayload.language := Some language;
       JobPayload.input_data := None; JobPayload.output_path := None |} in
  submit_job self SCRIPT requirements payload kwargs.

(** ** Polling engine *)

(** The progress callback.  It receives the job dictionary itself, so the
    outcome of a call is either an exception or the dictionary as the call
    leaves it (unchanged for a callback that only observes). *)
Definition Callback : Type := value -> result value.

(** [if callback: callback(job)] *)
Definition call_callback (callback : option Callback) (job : value) : M value :=
  match callback with
  | Some cb => fun w => (cb job, emit (EvCallback job) w)
  | None => ret job
  end.

Definition TERMINAL : list string := ["completed"; "failed"; "cancelled"].

(** [status in ["completed", "failed", "cancelled"]] *)
Definition is_terminal (status : value) : bool := existsb (eq_str status) TERMINAL.

(** One turn of the [while] body: [Some job] stands for [return job],
    [None] for falling through to the next test of the loop condition. *)
Definition poll_once (self : ComputeHiveClient) (job_id : string) (poll_interval : Z)
    (callback : option Callback) : M (option value) :=
  job <- get_job self job_id ;;
  job <- call_callback callback job ;;
  status <- lift (py_get job "status") ;;
  if is_terminal status then ret (Some job)
  else time_sleep poll_interval ;;; ret None.

Definition timeout_message (job_id : string) (timeout : Z) : string :=
  "Job " +:+ job_id +:+ " did not complete within " +:+ str_of_int timeout +:+ " seconds".

(** Computations that may not terminate: [None] when [fuel] turns of the
    loop were not enough to finish. *)
Definition MF (A : Type) : Type := World -> option (result A * World).

Definition bindF {A B} (m : MF A) (k : A -> MF B) : MF B :=
  fun w => match m w with
           | None => None
           | Some (Ok a, w') => k a w'
           | Some (Raise e, w') => Some (Raise e, w')
           end.
Definition liftF {A} (m : M A) : MF A := fun w => Some (m w).

Notation "x <~ m ;; k" := (bindF m (fun x => k))
  (at level 100, m at next level, right associativity).

(** [while time.time() - start_time < timeout: ...], then the [raise]. *)
Fixpoint wait_loop (fuel : nat) (self : ComputeHiveClient) (job_id : string)
    (timeout poll_interval : Z) (callback : option Callback) (start_time : Z) : MF value :=
  fun w =>
    match fuel with
    | O => None
    | S fuel' =>
        if now w - start_time <? timeout then
          match poll_once self job_id poll_interval callback w with
          | (Ok (Some job), w') => Some (Ok job, w')
          | (Ok None, w') =>
              wait_loop fuel' self job_id timeout poll_interval callback start_time w'
          | (Raise e, w') => Some (Raise e, w')
          end
        else Some (Raise (JobError (timeout_message job_id timeout)), w)
    end.

(** [wait_for_job(job_id, timeout=3600, poll_interval=5, callback=None)] *)
Definition wait_for_job (fuel : nat) (self : ComputeHiveClient) (job_id : string)
    (timeout poll_interval : option Z) (callback : option Callback) : MF value :=
  fun w =>
    let start_time := now w in
    wait_loop fuel self job_id (default 3600 timeout) (default 5 poll_interval)
              callback start_time w.

(** ** Convenience functions *)

Definition create_client (api_key : option string) : M ComputeHiveClient :=
  __init__ None api_key None None.

(** The keyword arguments [quick_run_docker] forwards to
    [submit_docker_job]. *)
Record DockerKwargs := {
  kw_cpu_cores : option Z;
  kw_memory_mb : option Z;
  kw_gpu_count : option Z;
  kw_env : option (list (string * string));
  kw_submit : SubmitKwargs
}.

Definition no_docker_kwargs : DockerKwargs :=
  {| kw_cpu_cores := None; kw_memory_mb := None; kw_gpu_count := None;
     kw_env := None; kw_submit := no_kwargs |}.

Section QuickRun.

(** [str(v)] as f-strings apply it to a decoded JSON value.  Only its
    value on strings matters below; its rendering of numbers and
    containers is left open. *)
Variable py_str : value -> string.

Definition quick_run_docker (fuel : nat) (image : string) (command : list string)
    (api_key : option string) (wait : bool) (kwargs : DockerKwargs) : MF value :=
  client <~ liftF (create_client api_key) ;;
  job <~ liftF (submit_docker_job client image command (kw_cpu_cores kwargs)
                  (kw_memory_mb kwargs) (kw_gpu_count kwargs) (kw_env kwargs)
                  (kw_submit kwargs)) ;;
  if wait then
    id <~ liftF (lift (py_subscript job "id")) ;;
    _ <~ liftF (print ("Job " +:+ py_str id +:+ " submitted, waiting for completion...")) ;;
    result <~ wait_for_job fuel client (py_str id) None None None ;;
    status <~ liftF (lift (py_subscript result "status")) ;;
    if eq_str status "completed"
    then liftF (get_job_result client (py_str id))
    else liftF (raise (JobError ("Job failed with status: " +:+ py_str status)))
  else liftF (ret job).

End QuickRun.

(** ** Vocabulary for the statements *)

(** A client is [constructed] when some call of the constructor returned it. *)
Definition constructed (self : ComputeHiveClient) : Prop :=
  exists url key t r w w', __init__ url key t r w = (Ok self, w').

(** The request [_make_request] hands to the session. *)
Definition request_of (self : ComputeHiveClient) (m endpoint : string)
    (data : option value) (q : option dict) : Request :=
  {| method := m; url := api_url self +:+ endpoint;
     headers := session_headers (session self);
     json := data; params := q; req_timeout := timeout self |}.

(** The server answers exchange number [k] with status 200 and the JSON
    body [v], after [dt] seconds, whatever the request. *)
Definition answers (w : World) (k : nat) (v : value) (dt : Z) : Prop :=
  forall req, exists r,
    server w k req = (Answer r, dt) /\ status_code r = 200 /\ body r = Some v.

(** The server answers exchange number [k] with the response [r]. *)
Definition replies (w : World) (k : nat) (r : Response) (dt : Z) : Prop :=
  forall req, server w k req = (Answer r, dt).

(** The requests put on the wire, oldest first. *)
Definition requests_of (t : list event) : list Request :=
  flat_map (fun e => match e with EvHttp req => [req] | _ => [] end) t.

(** What one successful exchange changes in the world. *)
Definition exchanged (req : Request) (dt : Z) (w : World) : World :=
  {| now := now w + dt; environ := environ w; server := server w;
     sent := S (sent w); trace := trace w ++ [EvHttp req] |}.

(** The retry policy every constructed client carries, after any number of
    recorded errors. *)
Definition client_policy (retries : Retry) : Prop :=
  status_forcelist retries = RETRY_STATUSES /\
  allowed_methods retries = DEFAULT_ALLOWED_METHODS /\
  raise_on_status retries = true.

(** Every exchange from the current one on is answered with a status of
    the force list. *)
Definition always_transient (w : World) : Prop :=
  forall k req, exists r dt,
    server w (sent w + k)%nat req = (Answer r, dt) /\ In (status_code r) RETRY_STATUSES.

(** ** Vocabulary for the polling loop *)

(** Whether the record's [status] is terminal; [None] when the record has
    no [get]. *)
Definition job_terminal (job : value) : option bool :=
  match py_get job "status" with
  | Ok status => Some (is_terminal status)
  | Raise _ => None
  end.

(** The callback, if any, returns normally on [job] and leaves it as it is. *)
Definition observes (callback : option Callback) (job : value) : Prop :=
  match callback with
  | Some cb => cb job = Ok job
  | None => True
  end.

(** The record as the callback, if any, leaves it: [callback(job)] works
    on the dictionary that is tested and returned afterwards. *)
Definition after_callback (callback : option Callback) (job : value) : result value :=
  match callback with
  | Some cb => cb job
  | None => Ok job
  end.

(** The callback, if any, returns normally on [job], and the test
    [status in [...]] that follows it on the record gives [b]. *)
Definition tested (callback : option Callback) (job : value) (b : bool) : Prop :=
  exists job', after_callback callback job = Ok job' /\ job_terminal job' = Some b.

Definition job_request (self : ComputeHiveClient) (job_id : string) : Request :=
  request_of self "GET" ("/api/v1/jobs/" +:+ job_id) None None.

(** The world after one probe answered [job] in [dt] seconds and the
    callback, if any, was called on it. *)
Definition probed (self : ComputeHiveClient) (job_id : string) (callback : option Callback)
    (job : value) (dt : Z) (w : World) : World :=
  let w1 := exchanged (job_request self job_id) dt w in
  match callback with
  | Some _ => emit (EvCallback job) w1
  | None => w1
  end.

Definition slept (d : Z) (w : World) : World := tick d (emit (EvSleep d) w).

(** The events of one probe: the request, then the callback. *)
Definition probe_events (self : ComputeHiveClient) (job_id : string)
    (callback : option Callback) (job : value) : list event :=
  EvHttp (job_request self job_id) ::
  match callback with Some _ => [EvCallback job] | None => [] end.

(** The events of a run of probes that did not end the loop: each probe is
    followed by one sleep. *)
Fixpoint pending_events (self : ComputeHiveClient) (job_id : string) (poll_interval : Z)
    (callback : option Callback) (pending : list (value * Z)) : list event :=
  match pending with
  | [] => []
  | (job, _) :: rest =>
      probe_events self job_id callback job ++ [EvSleep poll_interval] ++
      pending_events self job_id poll_interval callback rest
  end.

(** Time taken by a run of probes, each followed by its sleep. *)
Fixpoint elapsed (poll_interval : Z) (pending : list (value * Z)) : Z :=
  match pending with
  | [] => 0
  | (_, dt) :: rest => dt + poll_interval + elapsed poll_interval rest
  end.

(** The world after such a run. *)
Definition after_pending (self : ComputeHiveClient) (job_id : string) (poll_interval : Z)
    (callback : option Callback) (pending : list (value * Z)) (w : World) : World :=
  {| now := now w + elapsed poll_interval pending;
     environ := environ w;
     server := server w;
     sent := (sent w + length pending)%nat;
     trace := trace w ++ pending_events self job_id poll_interval callback pending |}.

(** The server answers the exchanges from the current one on with the
    records of [script], in order. *)
Definition scripted (w : World) (script : list (value * Z)) : Prop :=
  forall i job dt, script !! i = Some (job, dt) -> answers w (sent w + i)%nat job dt.

(** The spec's error kinds (section 7), read off the exception a call
    raises: the class, and for the base class the prefix of the message.
    Job timeout and job failure share the class [JobError]. *)
Inductive error_kind :=
| AuthenticationFailure | BadRequest | ApiFailure | NetworkFailure
| JobTimeoutOrFailure | OtherError.

Fixpoint starts_with (p s : string) : bool :=
  match p, s with
  | EmptyString, _ => true
  | String a p', String b s' => Ascii.eqb a b && starts_with p' s'
  | _, _ => false
  end.

Definition kind_of (e : exn) : error_kind :=
  match e with
  | AuthenticationError _ => AuthenticationFailure
  | ComputeHiveError msg =>
      if starts_with "Bad request: " msg then BadRequest
      else if starts_with "API request failed: " msg then ApiFailure
      else if starts_with "Network error: " msg then NetworkFailure
      else OtherError
  | JobError _ => JobTimeoutOrFailure
  | _ => OtherError
  end.

(** ** Concrete scenarios *)

Definition ok_response (v : value) : Response :=
  {| status_code := 200; reason := "OK"; text := ""; body := Some v; retry_after := None |}.

Definition error_response (code : Z) (why txt : string) : Response :=
  {| status_code := code; reason := why; text := txt; body := None; retry_after := None |}.

Definition job_record (id st : string) : value :=
  VDict [("id", VStr id); ("status", VStr st)].

Definition key_env : gmap string string := {[ "COMPUTEHIVE_API_KEY" := "secret" ]}.

(** A fresh world at clock reading 1000, with the given server and
    environment. *)
Definition world0 (srv : nat -> Request -> reply * Z) (env : gmap string string) : World :=
  {| now := 1000; environ := env; server := srv; sent := 0; trace := [] |}.

(** The client [ComputeHiveClient(api_key="secret", max_retries=r)]. *)
Definition demo_client (r : Z) : ComputeHiveClient :=
  {| api_url := "https://api.computehive.io";
     api_key := "secret";
     session := {| session_headers :=
                     [("Authorization", "Bearer secret");
                      ("Content-Type", "application/json");
                      ("User-Agent", "ComputeHive-Python-SDK/1.0.0")];
                   max_retries := Retry_new r 1 RETRY_STATUSES |};
     timeout := 30 |}.

(** A server that answers 503 twice and then 200. *)
Definition flaky_server (n : nat) (_ : Request) : reply * Z :=
  (match n with
   | 0%nat | 1%nat => Answer (error_response 503 "Service Unavailable" "busy")
   | _ => Answer (ok_response (job_record "j1" "running"))
   end, 0).

(** A server that always answers with the given status. *)
Definition stuck_server (code : Z) (n : nat) (_ : Request) : reply * Z :=
  (Answer (error_response code "" "no"), 0).

(** A mock that answers [running], [running], [completed], at once. *)
Definition three_probes (n : nat) (_ : Request) : reply * Z :=
  (match n with
   | 0%nat | 1%nat => Answer (ok_response (job_record "j1" "running"))
   | _ => Answer (ok_response (job_record "j1" "completed"))
   end, 0).

(** A mock whose job never leaves [running]. *)
Definition forever_running (n : nat) (_ : Request) : reply * Z :=
  (Answer (ok_response (job_record "j1" "running")), 0).

(** The platform of the quick-run scenario: the submission is accepted as
    job [j1], the job is seen [running] once and then in state [final],
    and the result record is served afterwards. *)
Definition quick_server (final : string) (n : nat) (_ : Request) : reply * Z :=
  (match n with
   | 0%nat => Answer (ok_response (job_record "j1" "pending"))
   | 1%nat => Answer (ok_response (job_record "j1" "running"))
   | 2%nat => Answer (ok_response (job_record "j1" final))
   | _ => Answer (ok_response (VDict [("exit", VInt 0); ("stdout", VStr "hi")]))
   end, 0).

(** A platform that accepts whatever is submitted as job [j1]. *)
Definition accepting_server (n : nat) (_ : Request) : reply * Z :=
  (Answer (ok_response (job_record "j1" "pending")), 0).

(** A rendering of values that is Python's [str] on strings and integers. *)
Definition str_scalar (v : value) : string :=
  match v with
  | VStr s => s
  | VInt n => str_of_int n
  | _ => ""
  end.

(** A callback that only observes. *)
Definition watch : Callback := fun job => Ok job.

(** ** Further vocabulary *)

(** The headers the constructor puts on the session for the key [key]. *)
Definition client_headers (key : string) : list (string * string) :=
  [("Authorization", "Bearer " +:+ key);
   ("Content-Type", "application/json");
   ("User-Agent", "ComputeHive-Python-SDK/1.0.0")].

(** The statuses on which the session follows the [Location] of an answer
    with a request of its own ([requests.models.REDIRECT_STATI]). *)
Definition REDIRECT_STATI : list Z := [301; 302; 303; 307; 308].

(** No exchange from the current one on is answered with a redirection:
    what goes on the wire is then what the adapter sends for the call. *)
Definition never_redirected (w : World) : Prop :=
  forall k req r dt,
    server w (sent w + k)%nat req = (Answer r, dt) -> ~ In (status_code r) REDIRECT_STATI.

(** Every exchange from the current one on fails to connect. *)
Definition unreachable_server (w : World) : Prop :=
  forall k req, exists msg dt, server w (sent w + k)%nat req = (ConnectFailure msg, dt).

(** A platform nobody can connect to. *)
Definition dead_server (n : nat) (_ : Request) : reply * Z :=
  (ConnectFailure "NewConnectionError: Connection refused", 0).

(** Whether the character [c] occurs in [s]. *)
Fixpoint has_char (c : ascii) (s : string) : bool :=
  match s with
  | EmptyString => false
  | String a s' => Ascii.eqb a c || has_char c s'
  end.

(** The resource record the convenience helpers send: only the three
    counts can be chosen. *)
Definition helper_requirements (cpu_cores memory_mb gpu_count : Z) : dict :=
  [("cpu_cores", VInt cpu_cores);
   ("memory_mb", VInt memory_mb);
   ("gpu_count", VInt gpu_count);
   ("storage_mb", VInt 1024);
   ("network_mbps", VInt 100);
   ("trusted_exec", VBool false)].

(** An SLA object with no field set. *)
Definition empty_sla : SLARequirements.t :=
  {| SLARequirements.max_latency_ms := None;
     SLARequirements.min_availability := None;
     SLARequirements.max_cost_per_hour := None;
     SLARequirements.preferred_regions := None |}.

(** A platform that answers every request with 201 Created and a job
    record. *)
Definition created_response : Response :=
  {| status_code := 201; reason := "Created"; text := "";
     body := Some (job_record "j1" "pending"); retry_after := None |}.

Definition creating_server (n : nat) (_ : Request) : reply * Z :=
  (Answer created_response, 0).

(** * Properties *)

(** ** The transport *)

Lemma constructed_retry (self : ComputeHiveClient) :
  constructed self ->
  exists r, max_retries (session self) = Retry_new r 1 RETRY_STATUSES.
Proof.
  intros (u & key & t & r & w & w' & H).
  unfold __init__, bind, os_getenv, raise in H.
  destruct (or_str key (environ w !! "COMPUTEHIVE_API_KEY")) as [[|a s]|];
    try discriminate H.
  inversion H; subst; simpl. eexists; reflexivity.
Qed.

Lemma demo_client_constructed (r : Z) : constructed (demo_client r).
Proof.
  exists None, (Some "secret"), None, (Some r), (world0 (stuck_server 200) ∅).
  exists (emit (EvSession (Retry_new r 1 RETRY_STATUSES)) (world0 (stuck_server 200) ∅)).
  reflexivity.
Qed.

Lemma urlopen_unfold fuel retries req w :
  Session.urlopen fuel retries req w =
  let '(rep, w1) := Session.exchange req w in
  match rep with
  | ConnectFailure msg =>
      match increment retries, fuel with
      | Some retries', S fuel' =>
          Session.urlopen fuel' retries' req (Session.retry_sleep retries' None w1)
      | _, _ => (inr (ConnectionError (Session.unreachable msg (url req))), w1)
      end
  | Answer r =>
      if is_retry retries (method req) (status_code r) (bool_decide (is_Some (retry_after r)))
      then
        match increment retries, fuel with
        | Some retries', S fuel' =>
            Session.urlopen fuel' retries' req (Session.retry_sleep retries' (retry_after r) w1)
        | _, _ =>
            if raise_on_status retries
            then (inr (RetryError (Session.too_many (status_code r) (url req))), w1)
            else (inl r, w1)
        end
      else (inl r, w1)
  end.
Proof. destruct fuel; reflexivity. Qed.

(** The fuel given by [Session.request] is never used up: more of it
    changes nothing. *)
Lemma urlopen_fuel fuel : forall retries req w,
  (Z.to_nat (total retries) <= fuel)%nat ->
  Session.urlopen fuel retries req w =
  Session.urlopen (Z.to_nat (total retries)) retries req w.
Proof.
  induction fuel as [|fuel IH]; intros retries req w Hle.
  - replace (Z.to_nat (total retries)) with 0%nat by lia. reflexivity.
  - rewrite (urlopen_unfold (S fuel)), (urlopen_unfold (Z.to_nat (total retries))).
    destruct (Session.exchange req w) as [rep w1].
    assert (Hinc : match increment retries with
                   | Some retries' =>
                       Z.to_nat (total retries) = S (Z.to_nat (total retries')) /\
                       (Z.to_nat (total retries') <= fuel)%nat
                   | None => True
                   end).
    { unfold increment. destruct (Z.ltb_spec (total retries - 1) 0); [exact I|].
      simpl. lia. }
    destruct (increment retries) as [retries'|]; [|reflexivity].
    destruct Hinc as [Heq Hle']. rewrite Heq.
    destruct rep as [r | msg].
    + destruct (is_retry retries (method req) (status_code r)
                  (bool_decide (is_Some (retry_after r)))); [|reflexivity].
      apply IH. exact Hle'.
    + apply IH. exact Hle'.
Qed.

Lemma exchange_server req w rep dt :
  server w (sent w) req = (rep, dt) ->
  Session.exchange req w = (rep, exchanged req dt w).
Proof. intros H. unfold Session.exchange. rewrite H. reflexivity. Qed.

(** A status outside both lists is never retried, whatever the method and
    the headers. *)
Lemma is_retry_other retries m status ra :
  mem_Z status (status_forcelist retries) = false ->
  mem_Z status RETRY_AFTER_STATUS_CODES = false ->
  is_retry retries m status ra = false.
Proof.
  intros H1 H2. unfold is_retry. rewrite H1, H2.
  destruct (negb (is_method_retryable retries m)); [reflexivity|].
  rewrite !andb_false_r. reflexivity.
Qed.

Lemma urlopen_final fuel retries req w r dt :
  server w (sent w) req = (Answer r, dt) ->
  is_retry retries (method req) (status_code r) (bool_decide (is_Some (retry_after r))) = false ->
  Session.urlopen fuel retries req w = (inl r, exchanged req dt w).
Proof.
  intros Hs Hr. rewrite urlopen_unfold, (exchange_server _ _ _ _ Hs). simpl.
  rewrite Hr. reflexivity.
Qed.

(** [_make_request] is the session's retry loop on [request_of], followed
    by the classification of its outcome. *)
Lemma make_request_unfold self m endpoint data q w :
  _make_request self m endpoint data q w =
  let u := api_url self +:+ endpoint in
  let '(r, w1) := Session.urlopen (Z.to_nat (total (max_retries (session self))))
                    (max_retries (session self)) (request_of self m endpoint data q) w in
  let attempt : value + RequestException :=
    match r with
    | inl response =>
        match raise_for_status u response with
        | Some e => inr e
        | None =>
            match body response with
            | Some v => inl v
            | None => inr (JSONDecodeError "Expecting value")
            end
        end
    | inr e => inr e
    end in
  match attempt with
  | inl v => (Ok v, w1)
  | inr (HTTPError msg response) =>
      if status_code response =? 401 then
        (Raise (AuthenticationError "Invalid API key or authentication failed"), w1)
      else if status_code response =? 400 then
        (Raise (ComputeHiveError ("Bad request: " +:+ text response)), w1)
      else
        (Raise (ComputeHiveError ("API request failed: " +:+ msg)), w1)
  | inr e =>
      (Raise (ComputeHiveError ("Network error: " +:+ str_of_exception e)), w1)
  end.
Proof. reflexivity. Qed.

(** A 200 answer with a JSON body is returned after one exchange. *)
Lemma make_request_ok self m endpoint data q w v dt :
  constructed self ->
  answers w (sent w) v dt ->
  _make_request self m endpoint data q w =
  (Ok v, exchanged (request_of self m endpoint data q) dt w).
Proof.
  intros Hc Ha. destruct (constructed_retry _ Hc) as [r Hr].
  destruct (Ha (request_of self m endpoint data q)) as (resp & Hs & Hcode & Hbody).
  rewrite make_request_unfold, (urlopen_final _ _ _ _ _ _ Hs).
  - cbv zeta. unfold raise_for_status. rewrite Hcode, Hbody. reflexivity.
  - apply is_retry_other; rewrite Hcode, ?Hr; reflexivity.
Qed.

Lemma retry_sleep_sent retries ra w : sent (Session.retry_sleep retries ra w) = sent w.
Proof.
  unfold Session.retry_sleep, Session.lib_sleep.
  destruct ra; repeat match goal with |- context [if ?b then _ else _] => destruct b end;
    reflexivity.
Qed.

Lemma retry_sleep_server retries ra w : server (Session.retry_sleep retries ra w) = server w.
Proof.
  unfold Session.retry_sleep, Session.lib_sleep.
  destruct ra; repeat match goal with |- context [if ?b then _ else _] => destruct b end;
    reflexivity.
Qed.

Lemma mem_Z_In x l : mem_Z x l = true <-> In x l.
Proof.
  unfold mem_Z. rewrite existsb_exists. split.
  - intros (y & Hy & Heq). apply Z.eqb_eq in Heq. subst. exact Hy.
  - intros H. exists x. split; [exact H | apply Z.eqb_refl].
Qed.

Lemma client_policy_new r : client_policy (Retry_new r 1 RETRY_STATUSES).
Proof. repeat split. Qed.

Lemma increment_spec retries :
  (total retries <= 0 -> increment retries = None) /\
  (0 < total retries ->
   exists retries', increment retries = Some retries' /\
     total retries' = total retries - 1 /\
     (client_policy retries -> client_policy retries')).
Proof.
  unfold increment. split; intros H.
  - destruct (Z.ltb_spec (total retries - 1) 0); [reflexivity | lia].
  - destruct (Z.ltb_spec (total retries - 1) 0); [lia |].
    eexists. split; [reflexivity|]. split; [reflexivity|]. intros Hp; exact Hp.
Qed.

Lemma is_method_retryable_policy retries m :
  client_policy retries ->
  is_method_retryable retries m = mem_str m DEFAULT_ALLOWED_METHODS.
Proof. intros (_ & Ha & _). unfold is_method_retryable. rewrite Ha. reflexivity. Qed.

Lemma is_retry_transient retries m status ra :
  client_policy retries ->
  mem_str m DEFAULT_ALLOWED_METHODS = true ->
  In status RETRY_STATUSES ->
  is_retry retries m status ra = true.
Proof.
  intros Hp Hm Hin. unfold is_retry.
  rewrite (is_method_retryable_policy _ _ Hp), Hm. simpl.
  destruct Hp as (Hf & _). rewrite Hf.
  apply mem_Z_In in Hin. rewrite Hin. reflexivity.
Qed.

(** A retried method against a server that only ever answers with a
    status of the force list: the budget is used up, one exchange per unit
    and one more, and the adapter gives up with a [RetryError]. *)
Lemma urlopen_exhausted n : forall fuel retries req w,
  Z.to_nat (total retries) = n -> (n <= fuel)%nat ->
  client_policy retries ->
  mem_str (method req) DEFAULT_ALLOWED_METHODS = true ->
  (forall k, exists r dt, server w (sent w + k)%nat req = (Answer r, dt) /\
                          In (status_code r) RETRY_STATUSES) ->
  exists r dt w',
    server w (sent w + n)%nat req = (Answer r, dt) /\
    Session.urlopen fuel retries req w =
      (inr (RetryError (Session.too_many (status_code r) (url req))), w') /\
    sent w' = (sent w + n + 1)%nat /\ server w' = server w.
Proof.
  induction n as [|n IH]; intros fuel retries req w Hn Hfuel Hp Hm Hsrv.
  - destruct (Hsrv 0%nat) as (r & dt & Hs & Hin).
    exists r, dt, (exchanged req dt w).
    rewrite Nat.add_0_r in *. split; [exact Hs|].
    rewrite urlopen_unfold, (exchange_server _ _ _ _ Hs). simpl.
    pose proof (is_retry_transient retries _ _
                  (bool_decide (is_Some (retry_after r))) Hp Hm Hin) as Hre.
    rewrite Hre.
    destruct (increment_spec retries) as [Hz _]. rewrite Hz by lia.
    destruct Hp as (_ & _ & Hr). rewrite Hr.
    repeat split; simpl; lia.
  - destruct (Hsrv 0%nat) as (r & dt & Hs & Hin).
    rewrite Nat.add_0_r in Hs.
    destruct fuel as [|fuel]; [lia|].
    destruct (increment_spec retries) as [_ Hpos].
    destruct Hpos as (retries' & Hinc & Htot & Hp'); [lia|].
    specialize (Hp' Hp).
    set (w2 := Session.retry_sleep retries' (retry_after r) (exchanged req dt w)).
    assert (Hsent : sent w2 = S (sent w)) by (unfold w2; rewrite retry_sleep_sent; reflexivity).
    assert (Hserver : server w2 = server w) by (unfold w2; rewrite retry_sleep_server; reflexivity).
    destruct (IH fuel retries' req w2) as (r' & dt' & w' & Hs' & Hrun & Hsent' & Hserver').
    + lia.
    + lia.
    + exact Hp'.
    + exact Hm.
    + intros k. rewrite Hserver, Hsent.
      replace (S (sent w) + k)%nat with (sent w + S k)%nat by lia. apply Hsrv.
    + exists r', dt', w'.
      rewrite Hserver, Hsent in Hs'.
      replace (S (sent w) + n)%nat with (sent w + S n)%nat in Hs' by lia.
      split; [exact Hs'|].
      rewrite urlopen_unfold, (exchange_server _ _ _ _ Hs). simpl.
      pose proof (is_retry_transient retries _ _
                    (bool_decide (is_Some (retry_after r))) Hp Hm Hin) as Hre.
      rewrite Hre, Hinc. fold w2. rewrite Hrun.
      repeat split; [lia | congruence].
Qed.

Lemma urlopen_retry_step fuel retries retries' req w r dt :
  server w (sent w) req = (Answer r, dt) ->
  is_retry retries (method req) (status_code r) (bool_decide (is_Some (retry_after r))) = true ->
  increment retries = Some retries' ->
  Session.urlopen (S fuel) retries req w =
  Session.urlopen fuel retries' req
    (Session.retry_sleep retries' (retry_after r) (exchanged req dt w)).
Proof.
  intros Hs Hr Hi. rewrite urlopen_unfold, (exchange_server _ _ _ _ Hs). simpl.
  rewrite Hr, Hi. reflexivity.
Qed.

(** Exhaustion as [_make_request] reports it: the [RetryError] of the
    adapter is a [RequestException] but not an [HTTPError], so the call
    ends in the last handler. *)
Lemma make_request_exhausted self m endpoint data q w :
  constructed self ->
  mem_str m DEFAULT_ALLOWED_METHODS = true ->
  always_transient w ->
  exists r dt w',
    server w (sent w + Z.to_nat (total (max_retries (session self))))%nat
           (request_of self m endpoint data q) = (Answer r, dt) /\
    _make_request self m endpoint data q w =
      (Raise (ComputeHiveError
                ("Network error: " +:+
                 Session.too_many (status_code r) (api_url self +:+ endpoint))), w') /\
    sent w' = (sent w + Z.to_nat (total (max_retries (session self))) + 1)%nat.
Proof.
  intros Hc Hm Hsrv. destruct (constructed_retry _ Hc) as [r0 Hr0].
  set (req := request_of self m endpoint data q).
  destruct (urlopen_exhausted (Z.to_nat (total (max_retries (session self))))
              (Z.to_nat (total (max_retries (session self))))
              (max_retries (session self)) req w)
    as (r & dt & w' & Hs & Hrun & Hsent & _).
  - reflexivity.
  - lia.
  - rewrite Hr0. apply client_policy_new.
  - exact Hm.
  - intros k. apply Hsrv.
  - exists r, dt, w'. split; [exact Hs|]. split; [|exact Hsent].
    rewrite make_request_unfold. fold req. rewrite Hrun. reflexivity.
Qed.

(** A method outside [allowed_methods] (POST) is never retried on a
    status: the first answer of the force list is surfaced as is. *)
Lemma make_request_post_not_retried self endpoint data q w resp dt :
  constructed self ->
  replies w (sent w) resp dt ->
  In (status_code resp) RETRY_STATUSES ->
  exists msg,
    _make_request self "POST" endpoint data q w =
      (Raise (ComputeHiveError ("API request failed: " +:+ msg)),
       exchanged (request_of self "POST" endpoint data q) dt w).
Proof.
  intros Hc Hs Hin. destruct (constructed_retry _ Hc) as [r0 Hr0].
  rewrite make_request_unfold, (urlopen_final _ _ _ _ _ _ (Hs _)).
  - cbv zeta. unfold raise_for_status.
    simpl in Hin.
    destruct Hin as [H|[H|[H|[H|[H|[]]]]]]; symmetry in H;
      rewrite H; simpl; rewrite H; simpl; eexists; reflexivity.
  - unfold is_retry.
    rewrite (is_method_retryable_policy _ _ (eq_ind_r client_policy (client_policy_new r0) Hr0)).
    reflexivity.
Qed.

(** 503, 503, then 200: two retries and a success, when the budget allows
    two retries. *)
Lemma make_request_flaky self m endpoint data q w r1 r2 dt1 dt2 v dt3 :
  constructed self ->
  2 <= total (max_retries (session self)) ->
  mem_str m DEFAULT_ALLOWED_METHODS = true ->
  replies w (sent w) r1 dt1 -> status_code r1 = 503 ->
  replies w (S (sent w)) r2 dt2 -> status_code r2 = 503 ->
  answers w (S (S (sent w))) v dt3 ->
  exists w',
    _make_request self m endpoint data q w = (Ok v, w') /\
    sent w' = (sent w + 3)%nat.
Proof.
  intros Hc Hr Hm H1 Hc1 H2 Hc2 H3. destruct (constructed_retry _ Hc) as [r0 Hr0].
  set (req := request_of self m endpoint data q).
  set (p0 := max_retries (session self)) in *.
  assert (Hp0 : client_policy p0) by (rewrite Hr0; apply client_policy_new).
  destruct (increment_spec p0) as [_ Hi1].
  destruct Hi1 as (p1 & Hinc1 & Ht1 & Hp1); [lia|]. specialize (Hp1 Hp0).
  destruct (increment_spec p1) as [_ Hi2].
  destruct Hi2 as (p2 & Hinc2 & Ht2 & Hp2); [lia|]. specialize (Hp2 Hp1).
  assert (Hfuel : exists f, Z.to_nat (total p0) = S (S f)).
  { exists (Z.to_nat (total p0) - 2)%nat. lia. }
  destruct Hfuel as [f Hf].
  set (w1 := Session.retry_sleep p1 (retry_after r1) (exchanged req dt1 w)).
  set (w2 := Session.retry_sleep p2 (retry_after r2) (exchanged req dt2 w1)).
  assert (Hs1 : sent w1 = S (sent w)) by (unfold w1; rewrite retry_sleep_sent; reflexivity).
  assert (Hv1 : server w1 = server w) by (unfold w1; rewrite retry_sleep_server; reflexivity).
  assert (Hs2 : sent w2 = S (S (sent w))).
  { unfold w2. rewrite retry_sleep_sent. simpl. rewrite Hs1. reflexivity. }
  assert (Hv2 : server w2 = server w).
  { unfold w2. rewrite retry_sleep_server. simpl. exact Hv1. }
  destruct (H3 req) as (r3 & Hs3 & Hc3 & Hb3).
  exists (exchanged req dt3 w2). split.
  - rewrite make_request_unfold. fold req. fold p0. rewrite Hf.
    rewrite (urlopen_retry_step _ p0 p1 req w r1 dt1); [| apply H1 | | exact Hinc1].
    2:{ apply is_retry_transient; [exact Hp0 | exact Hm | rewrite Hc1; simpl; tauto]. }
    fold w1.
    rewrite (urlopen_retry_step _ p1 p2 req w1 r2 dt2); [| | | exact Hinc2].
    2:{ rewrite Hv1, Hs1. apply H2. }
    2:{ apply is_retry_transient; [exact Hp1 | exact Hm | rewrite Hc2; simpl; tauto]. }
    fold w2.
    rewrite (urlopen_final _ p2 req w2 r3 dt3).
    + cbv zeta. unfold raise_for_status. rewrite Hc3, Hb3. reflexivity.
    + rewrite Hv2, Hs2. exact Hs3.
    + apply is_retry_other; rewrite Hc3; [|reflexivity].
      destruct Hp2 as (Hfl & _). rewrite Hfl. reflexivity.
  - simpl. rewrite Hs2. lia.
Qed.

(** C3 (amended).  A constructed client whose retry budget is
    [max_retries = r >= 0] carries the policy [Retry(total=r,
    backoff_factor=1, status_forcelist=[429, 500, 502, 503, 504])].  For a
    request whose method the policy retries (GET and the other idempotent
    methods): when every answer has a status of the list, the call fails
    with a [ComputeHiveError] after exactly [r + 1] exchanges; and when
    [r >= 2], two 503 answers followed by a 200 give a successful return
    after exactly three exchanges.  A POST is not retried on such a
    status: the first answer fails the call with "API request failed". *)
Theorem retry_policy_idempotent self r :
  constructed self ->
  total (max_retries (session self)) = r ->
  0 <= r ->
  max_retries (session self) = Retry_new r 1 RETRY_STATUSES /\
  (forall m endpoint data q w,
      mem_str m DEFAULT_ALLOWED_METHODS = true ->
      always_transient w ->
      exists msg w',
        _make_request self m endpoint data q w = (Raise (ComputeHiveError msg), w') /\
        sent w' = (sent w + Z.to_nat r + 1)%nat) /\
  (forall m endpoint data q w r1 r2 dt1 dt2 v dt3,
      2 <= r ->
      mem_str m DEFAULT_ALLOWED_METHODS = true ->
      replies w (sent w) r1 dt1 -> status_code r1 = 503 ->
      replies w (S (sent w)) r2 dt2 -> status_code r2 = 503 ->
      answers w (S (S (sent w))) v dt3 ->
      exists w',
        _make_request self m endpoint data q w = (Ok v, w') /\
        sent w' = (sent w + 3)%nat) /\
  (forall endpoint data q w resp dt,
      replies w (sent w) resp dt ->
      In (status_code resp) RETRY_STATUSES ->
      exists msg,
        _make_request self "POST" endpoint data q w =
          (Raise (ComputeHiveError ("API request failed: " +:+ msg)),
           exchanged (request_of self "POST" endpoint data q) dt w)).
Proof.
  intros Hc Hr Hpos. repeat split.
  - destruct (constructed_retry _ Hc) as [r0 Hr0]. rewrite Hr0 in Hr |- *.
    simpl in Hr. subst r0. reflexivity.
  - intros m endpoint data q w Hm Hsrv.
    destruct (make_request_exhausted self m endpoint data q w Hc Hm Hsrv)
      as (resp & dt & w' & _ & Hrun & Hsent).
    rewrite Hr in Hsent. eauto.
  - intros m endpoint data q w r1 r2 dt1 dt2 v dt3 H2 Hm H1 Hc1 H2' Hc2 H3.
    apply (make_request_flaky self m endpoint data q w r1 r2 dt1 dt2 v dt3); auto.
    rewrite Hr. exact H2.
  - intros endpoint data q w resp dt Hs Hin.
    apply (make_request_post_not_retried self endpoint data q w resp dt); assumption.
Qed.

(** The default client: a GET answered 503, 503, 200 takes three exchanges
    and returns the decoded body; a GET answered 503 every time fails
    after four exchanges; a POST answered 503 fails after one. *)
Lemma retry_policy_idempotent_witness :
  (exists w',
     get_job (demo_client 3) "j1" (world0 flaky_server key_env)
       = (Ok (job_record "j1" "running"), w') /\
     sent w' = 3%nat) /\
  (exists msg w',
     get_job (demo_client 3) "j1" (world0 (stuck_server 503) key_env)
       = (Raise (ComputeHiveError msg), w') /\
     sent w' = 4%nat) /\
  (exists msg,
     _make_request (demo_client 3) "POST" "/api/v1/jobs/j1/cancel" None None
                   (world0 (stuck_server 503) key_env)
       = (Raise (ComputeHiveError ("API request failed: " +:+ msg)),
          exchanged (request_of (demo_client 3) "POST" "/api/v1/jobs/j1/cancel" None None) 0
                    (world0 (stuck_server 503) key_env))).
Proof.
  destruct (retry_policy_idempotent (demo_client 3) 3 (demo_client_constructed 3)
              eq_refl ltac:(lia)) as (_ & Hexhausted & Hflaky & Hpost).
  split; [|split].
  - apply (Hflaky "GET" ("/api/v1/jobs/" +:+ "j1") None None (world0 flaky_server key_env)
             (error_response 503 "Service Unavailable" "busy")
             (error_response 503 "Service Unavailable" "busy") 0 0
             (job_record "j1" "running") 0).
    + lia.
    + reflexivity.
    + intros req. reflexivity.
    + reflexivity.
    + intros req. reflexivity.
    + reflexivity.
    + intros req. eexists. repeat split; reflexivity.
  - apply (Hexhausted "GET" ("/api/v1/jobs/" +:+ "j1") None None
             (world0 (stuck_server 503) key_env)).
    + reflexivity.
    + intros k req. exists (error_response 503 "" "no"), 0.
      split; [reflexivity | simpl; tauto].
  - apply (Hpost "/api/v1/jobs/j1/cancel" None None (world0 (stuck_server 503) key_env)
             (error_response 503 "" "no") 0).
    + intros req. reflexivity.
    + simpl; tauto.
Defined.

(** C3, as stated, fails twice on the default client ([max_retries = 3]).
    A POST answered 503, 503, 200 is sent once and fails; and a GET
    answered 503 on each of its four attempts ends in the "Network error"
    handler, not in "API request failed". *)
Lemma retry_policy_counterexample :
  (fst (cancel_job (demo_client 3) "j1" (world0 flaky_server key_env))
     = Raise (ComputeHiveError
                "API request failed: 503 Server Error: Service Unavailable for url: https://api.computehive.io/api/v1/jobs/j1/cancel") /\
   sent (snd (cancel_job (demo_client 3) "j1" (world0 flaky_server key_env))) = 1%nat) /\
  (exists e,
     fst (get_job (demo_client 3) "j1" (world0 (stuck_server 503) key_env)) = Raise e /\
     kind_of e = NetworkFailure /\ kind_of e <> ApiFailure /\
     sent (snd (get_job (demo_client 3) "j1" (world0 (stuck_server 503) key_env))) = 4%nat).
Proof.
  split.
  - split; vm_compute; reflexivity.
  - eexists. split; [vm_compute; reflexivity|].
    split; [vm_compute; reflexivity|]. split; [|vm_compute; reflexivity].
    vm_compute. discriminate.
Qed.

Lemma kind_of_bad_request body : kind_of (ComputeHiveError ("Bad request: " +:+ body)) = BadRequest.
Proof. reflexivity. Qed.

(** C7.  An answer with status 400 ends the call after this one exchange
    (nothing else is sent and nothing is slept), with a [ComputeHiveError]
    "Bad request: " followed by the response body; an answer with status
    401 ends it the same way with an [AuthenticationError]. *)
Theorem client_error_not_retried self m endpoint data q w resp dt :
  constructed self ->
  server w (sent w) (request_of self m endpoint data q) = (Answer resp, dt) ->
  (status_code resp = 400 ->
     _make_request self m endpoint data q w =
       (Raise (ComputeHiveError ("Bad request: " +:+ text resp)),
        exchanged (request_of self m endpoint data q) dt w) /\
     kind_of (ComputeHiveError ("Bad request: " +:+ text resp)) = BadRequest) /\
  (status_code resp = 401 ->
     _make_request self m endpoint data q w =
       (Raise (AuthenticationError "Invalid API key or authentication failed"),
        exchanged (request_of self m endpoint data q) dt w)).
Proof.
  intros Hc Hs. destruct (constructed_retry _ Hc) as [r0 Hr0].
  assert (Hone : forall code, status_code resp = code ->
            mem_Z code RETRY_STATUSES = false ->
            mem_Z code RETRY_AFTER_STATUS_CODES = false ->
            Session.urlopen (Z.to_nat (total (max_retries (session self))))
              (max_retries (session self)) (request_of self m endpoint data q) w =
            (inl resp, exchanged (request_of self m endpoint data q) dt w)).
  { intros code Hcode Hf Ha. apply urlopen_final; [exact Hs|].
    apply is_retry_other; rewrite Hcode, ?Hr0; assumption. }
  split; intros Hcode.
  - split; [|apply kind_of_bad_request].
    rewrite make_request_unfold, (Hone 400 Hcode eq_refl eq_refl). cbv zeta.
    unfold raise_for_status. rewrite Hcode. simpl. rewrite Hcode. reflexivity.
  - rewrite make_request_unfold, (Hone 401 Hcode eq_refl eq_refl). cbv zeta.
    unfold raise_for_status. rewrite Hcode. simpl. rewrite Hcode. reflexivity.
Qed.

(** A GET and a POST of the default client against a server that always
    answers 400 with the body [no]. *)
Lemma client_error_not_retried_witness :
  (get_job (demo_client 3) "j1" (world0 (stuck_server 400) key_env) =
     (Raise (ComputeHiveError "Bad request: no"),
      exchanged (request_of (demo_client 3) "GET" "/api/v1/jobs/j1" None None) 0
                (world0 (stuck_server 400) key_env))) /\
  (_make_request (demo_client 3) "POST" "/api/v1/jobs/j1/cancel" None None
                 (world0 (stuck_server 401) key_env) =
     (Raise (AuthenticationError "Invalid API key or authentication failed"),
      exchanged (request_of (demo_client 3) "POST" "/api/v1/jobs/j1/cancel" None None) 0
                (world0 (stuck_server 401) key_env))).
Proof.
  split.
  - apply (client_error_not_retried (demo_client 3) "GET" "/api/v1/jobs/j1" None None
             (world0 (stuck_server 400) key_env) (error_response 400 "" "no") 0
             (demo_client_constructed 3) eq_refl).
    reflexivity.
  - apply (client_error_not_retried (demo_client 3) "POST" "/api/v1/jobs/j1/cancel"
             None None (world0 (stuck_server 401) key_env) (error_response 401 "" "no") 0
             (demo_client_constructed 3) eq_refl).
    reflexivity.
Defined.

(** ** Construction *)

(** C8.  With no [api_key] argument and no [COMPUTEHIVE_API_KEY] in the
    environment the constructor raises [AuthenticationError]; the world is
    left as it was, so no session was created and no adapter mounted. *)
Theorem init_without_key api_url timeout max_retries w :
  environ w !! "COMPUTEHIVE_API_KEY" = None ->
  __init__ api_url None timeout max_retries w =
    (Raise (AuthenticationError missing_key_message), w).
Proof.
  intros H. unfold __init__, bind, os_getenv. rewrite H. reflexivity.
Qed.

Lemma init_without_key_witness :
  __init__ None None None None (world0 accepting_server ∅) =
    (Raise (AuthenticationError missing_key_message), world0 accepting_server ∅).
Proof. apply (init_without_key None None None (world0 accepting_server ∅)). reflexivity. Defined.

(** C9.  An empty credential counts as a missing one.  Whenever the
    argument is absent or the empty string, and the variable is absent or
    the empty string, the constructor raises the [AuthenticationError] of
    the missing credential and leaves the world as it was; and an empty
    argument is treated in every world exactly as an absent one. *)
Theorem init_empty_key api_url api_key timeout max_retries w :
  api_key = None \/ api_key = Some "" ->
  environ w !! "COMPUTEHIVE_API_KEY" = None \/ environ w !! "COMPUTEHIVE_API_KEY" = Some "" ->
  __init__ api_url api_key timeout max_retries w =
    (Raise (AuthenticationError missing_key_message), w) /\
  __init__ api_url (Some "") timeout max_retries w =
    __init__ api_url None timeout max_retries w.
Proof.
  intros Hk He. split.
  - unfold __init__, bind, os_getenv.
    destruct Hk as [-> | ->], He as [-> | ->]; reflexivity.
  - reflexivity.
Qed.

(** The empty string passed as the argument, and the empty string found in
    the environment. *)
Lemma init_empty_key_witness :
  __init__ None (Some "") None None (world0 accepting_server ∅) =
    (Raise (AuthenticationError missing_key_message), world0 accepting_server ∅) /\
  __init__ None None None None (world0 accepting_server {[ "COMPUTEHIVE_API_KEY" := "" ]}) =
    (Raise (AuthenticationError missing_key_message),
     world0 accepting_server {[ "COMPUTEHIVE_API_KEY" := "" ]}).
Proof.
  split.
  - apply (init_empty_key None (Some "") None None (world0 accepting_server ∅));
      [right | left]; reflexivity.
  - apply (init_empty_key None None None None
             (world0 accepting_server {[ "COMPUTEHIVE_API_KEY" := "" ]}));
      [left | right]; reflexivity.
Defined.

(** ** What goes on the wire *)

Lemma retry_sleep_trace retries ra w :
  exists evs, trace (Session.retry_sleep retries ra w) = trace w ++ evs.
Proof.
  unfold Session.retry_sleep, Session.lib_sleep.
  destruct ra; repeat match goal with |- context [if ?b then _ else _] => destruct b end;
    simpl; first [ exists []; rewrite app_nil_r; reflexivity | eexists; reflexivity ].
Qed.

(** The first thing a session request does is to send the request. *)
Lemma urlopen_trace fuel : forall retries req w,
  exists rest,
    trace (snd (Session.urlopen fuel retries req w)) = trace w ++ EvHttp req :: rest.
Proof.
  induction fuel as [|fuel IH]; intros retries req w;
    rewrite urlopen_unfold; unfold Session.exchange;
    destruct (server w (sent w) req) as [rep dt];
    destruct rep as [r | msg];
    repeat match goal with
           | |- context [if ?b then _ else _] => destruct b
           | |- context [match increment ?r with _ => _ end] => destruct (increment r)
           end;
    try (exists []; reflexivity).
  all: match goal with
       | IH : forall _ _ _, _
         |- context [Session.urlopen _ ?r' ?rq (Session.retry_sleep ?a ?b ?w1)] =>
           let rest := fresh "rest" in
           let evs := fresh "evs" in
           let Hrest := fresh "Hrest" in
           let Hevs := fresh "Hevs" in
           destruct (IH r' rq (Session.retry_sleep a b w1)) as [rest Hrest];
           destruct (retry_sleep_trace a b w1) as [evs Hevs];
           rewrite Hrest, Hevs; simpl; exists (evs ++ EvHttp rq :: rest);
           rewrite <- !app_assoc; reflexivity
       end.
Qed.

Lemma make_request_world self m endpoint data q w :
  snd (_make_request self m endpoint data q w) =
  snd (Session.urlopen (Z.to_nat (total (max_retries (session self))))
         (max_retries (session self)) (request_of self m endpoint data q) w).
Proof.
  rewrite make_request_unfold. cbv zeta.
  destruct (Session.urlopen _ _ _ w) as [[resp | e] w1]; simpl.
  - destruct (raise_for_status _ resp) as [[msg r | | |]|]; simpl;
      repeat match goal with |- context [if ?b then _ else _] => destruct b end;
      try reflexivity.
    destruct (body resp); reflexivity.
  - destruct e; repeat match goal with |- context [if ?b then _ else _] => destruct b end;
      reflexivity.
Qed.

(** Whatever the server does, [_make_request] first sends [request_of]. *)
Lemma make_request_sends self m endpoint data q w :
  exists rest,
    trace (snd (_make_request self m endpoint data q w)) =
    trace w ++ EvHttp (request_of self m endpoint data q) :: rest.
Proof. rewrite make_request_world. apply urlopen_trace. Qed.

(** ** Submission shapes *)

(** [submit_docker_job] is one POST of [submit_job_data] to [/api/v1/jobs]. *)
Lemma submit_docker_job_sends self image command cpu_cores memory_mb gpu_count env kwargs w :
  exists rest,
    trace (snd (submit_docker_job self image command cpu_cores memory_mb gpu_count
                  env kwargs w)) =
    trace w ++
    EvHttp (request_of self "POST" "/api/v1/jobs"
              (Some (VDict (submit_job_data DOCKER
                              (ResourceRequirements.make (default 1 cpu_cores)
                                 (default 1024 memory_mb) (Some (default 0 gpu_count)))
                              (docker_payload image command env) kwargs)))
              None) :: rest.
Proof. unfold submit_docker_job, submit_job. apply make_request_sends. Qed.

(** C1 (amended).  Submitting [image="alpine"], [command=["echo","ok"]],
    [cpu_cores=2], [memory_mb=512] with nothing else: the first request
    on the wire is a POST to [/api/v1/jobs] whose JSON body has
    [type = "docker"], [requirements.cpu_cores = 2],
    [payload.image = "alpine"], [payload.command = ["echo", "ok"]],
    [priority = 5], [timeout = 3600] and [max_retries = 3]. *)
Theorem docker_submission_body self w :
  exists body requirements payload rest,
    trace (snd (submit_docker_job self "alpine" ["echo"; "ok"] (Some 2) (Some 512)
                  None None no_kwargs w)) =
      trace w ++
      EvHttp (request_of self "POST" "/api/v1/jobs" (Some (VDict body)) None) :: rest /\
    dict_get body "type" = Some (VStr "docker") /\
    dict_get body "requirements" = Some (VDict requirements) /\
    dict_get requirements "cpu_cores" = Some (VInt 2) /\
    dict_get body "payload" = Some (VDict payload) /\
    dict_get payload "image" = Some (VStr "alpine") /\
    dict_get payload "command" = Some (VList [VStr "echo"; VStr "ok"]) /\
    dict_get body "priority" = Some (VInt 5) /\
    dict_get body "timeout" = Some (VInt 3600) /\
    dict_get body "max_retries" = Some (VInt 3).
Proof.
  destruct (submit_docker_job_sends self "alpine" ["echo"; "ok"] (Some 2) (Some 512)
              None None no_kwargs w) as [rest Hrest].
  eexists _, _, _, rest. split; [exact Hrest|].
  repeat split; reflexivity.
Qed.

(** C1 as stated fails: the [type] that goes on the wire for a container
    submission is the enum value ["docker"], not ["container-image"]. *)
Lemma docker_type_counterexample :
  exists body,
    map json (requests_of (trace (snd
      (submit_docker_job (demo_client 3) "alpine" ["echo"; "ok"] (Some 2) (Some 512)
         None None no_kwargs (world0 accepting_server key_env))))) = [Some (VDict body)] /\
    dict_get body "type" = Some (VStr "docker") /\
    dict_get body "type" <> Some (VStr "container-image").
Proof.
  eexists. split; [vm_compute; reflexivity|].
  split; [reflexivity | discriminate].
Qed.

(** C10.  The payload of every container submission has the key [env]:
    the flattened list, which is the empty list when [env] is left out.
    The filter of [to_dict] drops [None] only, never an empty list. *)
Theorem docker_payload_has_env self image command cpu_cores memory_mb gpu_count env kwargs w :
  exists body payload rest,
    trace (snd (submit_docker_job self image command cpu_cores memory_mb gpu_count
                  env kwargs w)) =
      trace w ++
      EvHttp (request_of self "POST" "/api/v1/jobs" (Some (VDict body)) None) :: rest /\
    dict_get body "payload" = Some (VDict payload) /\
    payload = JobPayload.to_dict (docker_payload image command env) /\
    dict_get payload "env" = Some (VStrs (env_list env)) /\
    env_list None = [] /\
    dict_get (JobPayload.to_dict (docker_payload image command None)) "env" = Some (VList []).
Proof.
  destruct (submit_docker_job_sends self image command cpu_cores memory_mb gpu_count
              env kwargs w) as [rest Hrest].
  eexists _, _, rest. split; [exact Hrest|].
  split.
  - unfold submit_job_data. destruct (kw_sla_requirements kwargs); reflexivity.
  - repeat split; reflexivity.
Qed.

(** ** Query maps *)

(** C5 (what the code does).  Each query parameter is sent exactly when
    its argument is truthy ([if min_cpu:] and the like), so an argument
    given as [0], [0.0] or the empty string is dropped like an absent
    one: [get_marketplace_offers(min_cpu=0, min_memory=0, max_price=0.0)]
    is the same call as [get_marketplace_offers()].  With [min_cpu=2]
    alone the query is [min_cpu=2] and nothing else. *)
Theorem marketplace_params_truthy min_cpu min_memory max_price region self w :
  dict_get (marketplace_params min_cpu min_memory max_price region) "min_cpu" =
    (if truthy (of_opt VInt min_cpu) then Some (of_opt VInt min_cpu) else None) /\
  dict_get (marketplace_params min_cpu min_memory max_price region) "min_memory" =
    (if truthy (of_opt VInt min_memory) then Some (of_opt VInt min_memory) else None) /\
  dict_get (marketplace_params min_cpu min_memory max_price region) "max_price" =
    (if truthy (of_opt VFloat max_price) then Some (of_opt VFloat max_price) else None) /\
  dict_get (marketplace_params min_cpu min_memory max_price region) "region" =
    (if truthy (of_opt VStr region) then Some (of_opt VStr region) else None) /\
  marketplace_params (Some 0) (Some 0) (Some 0%float) None = [] /\
  get_marketplace_offers self (Some 0) (Some 0) (Some 0%float) None w =
    get_marketplace_offers self None None None None w /\
  marketplace_params (Some 2) None None None = [("min_cpu", VInt 2)].
Proof.
  repeat split; try reflexivity; unfold marketplace_params;
    destruct (truthy (of_opt VInt min_cpu)), (truthy (of_opt VInt min_memory)),
             (truthy (of_opt VFloat max_price)), (truthy (of_opt VStr region));
    reflexivity.
Qed.

(** The failing input on the wire: [min_cpu=0], [min_memory=0] and
    [max_price=0.0], given explicitly, are not sent; the one request
    carries an empty query map. *)
Lemma marketplace_zero_query :
  map params (requests_of (trace (snd
    (get_marketplace_offers (demo_client 3) (Some 0) (Some 0) (Some 0%float) None
       (world0 accepting_server key_env))))) = [Some []] /\
  dict_get (marketplace_params (Some 0) (Some 0) (Some 0%float) None) "min_cpu" = None /\
  dict_get (marketplace_params (Some 0) (Some 0) (Some 0%float) None) "max_price" = None.
Proof. repeat split; vm_compute; reflexivity. Qed.

(** ** The polling loop *)

Lemma get_job_ok self job_id w job dt :
  constructed self ->
  answers w (sent w) job dt ->
  get_job self job_id w = (Ok job, exchanged (job_request self job_id) dt w).
Proof. intros Hc Ha. unfold get_job. apply make_request_ok; assumption. Qed.

Lemma job_terminal_status job b :
  job_terminal job = Some b ->
  exists status, py_get job "status" = Ok status /\ is_terminal status = b.
Proof.
  unfold job_terminal. destruct (py_get job "status") as [st|e]; [|discriminate].
  intros H. inversion H. eauto.
Qed.

Lemma call_callback_observes callback job w :
  observes callback job ->
  call_callback callback job w =
    (Ok job, match callback with Some _ => emit (EvCallback job) w | None => w end).
Proof.
  destruct callback as [cb|]; simpl; intros H; [rewrite H|]; reflexivity.
Qed.

(** A probe that sees a record which is not terminal: the loop sleeps and
    goes round again. *)
Lemma poll_once_pending self job_id poll_interval callback job dt w :
  constructed self ->
  answers w (sent w) job dt ->
  job_terminal job = Some false ->
  observes callback job ->
  0 <= poll_interval ->
  poll_once self job_id poll_interval callback w =
    (Ok None, slept poll_interval (probed self job_id callback job dt w)).
Proof.
  intros Hc Ha Ht Ho Hp. unfold poll_once, bind.
  rewrite (get_job_ok _ _ _ _ _ Hc Ha), (call_callback_observes _ _ _ Ho).
  destruct (job_terminal_status _ _ Ht) as (st & Hst & Hterm).
  unfold lift. rewrite Hst, Hterm. unfold time_sleep.
  destruct (Z.ltb_spec poll_interval 0); [lia|]. reflexivity.
Qed.

(** A probe that sees a terminal record returns it: nothing is sent or
    slept after the callback. *)
Lemma poll_once_terminal self job_id poll_interval callback job dt w :
  constructed self ->
  answers w (sent w) job dt ->
  job_terminal job = Some true ->
  observes callback job ->
  poll_once self job_id poll_interval callback w =
    (Ok (Some job), probed self job_id callback job dt w).
Proof.
  intros Hc Ha Ht Ho. unfold poll_once, bind.
  rewrite (get_job_ok _ _ _ _ _ Hc Ha), (call_callback_observes _ _ _ Ho).
  destruct (job_terminal_status _ _ Ht) as (st & Hst & Hterm).
  unfold lift. rewrite Hst, Hterm. reflexivity.
Qed.

Lemma wait_loop_unfold fuel self job_id timeout poll_interval callback start_time w :
  wait_loop (S fuel) self job_id timeout poll_interval callback start_time w =
  if now w - start_time <? timeout then
    match poll_once self job_id poll_interval callback w with
    | (Ok (Some job), w') => Some (Ok job, w')
    | (Ok None, w') =>
        wait_loop fuel self job_id timeout poll_interval callback start_time w'
    | (Raise e, w') => Some (Raise e, w')
    end
  else Some (Raise (JobError (timeout_message job_id timeout)), w).
Proof. reflexivity. Qed.

Lemma scripted_tail w w' job dt script :
  scripted w ((job, dt) :: script) ->
  server w' = server w -> sent w' = S (sent w) ->
  scripted w' script.
Proof.
  intros H Hsrv Hsent i v d Hi req.
  rewrite Hsrv, Hsent. replace (S (sent w) + i)%nat with (sent w + S i)%nat by lia.
  apply (H (S i) v d). exact Hi.
Qed.

Lemma scripted_head w job dt script :
  scripted w ((job, dt) :: script) -> answers w (sent w) job dt.
Proof.
  intros H. specialize (H 0%nat job dt eq_refl). rewrite Nat.add_0_r in H. exact H.
Qed.

(** A run of probes that see no terminal record, each before the deadline,
    leaves the loop where it started, in the world [after_pending]. *)
Lemma wait_loop_pending self job_id timeout poll_interval callback start_time pending :
  forall fuel w,
  constructed self ->
  scripted w pending ->
  Forall (fun p => job_terminal (fst p) = Some false /\ observes callback (fst p)) pending ->
  (forall k, (k < length pending)%nat ->
             now w - start_time + elapsed poll_interval (take k pending) < timeout) ->
  pending = [] \/ 0 <= poll_interval ->
  wait_loop (length pending + fuel) self job_id timeout poll_interval callback start_time w =
  wait_loop fuel self job_id timeout poll_interval callback start_time
            (after_pending self job_id poll_interval callback pending w).
Proof.
  induction pending as [|[job dt] rest IH]; intros fuel w Hc Hs Hall Hdead Hpoll.
  - simpl. f_equal. destruct w; unfold after_pending; simpl.
    rewrite Z.add_0_r, Nat.add_0_r, app_nil_r. reflexivity.
  - destruct Hpoll as [Hnil | Hpoll]; [discriminate|].
    inversion Hall as [|? ? [Hterm Hobs] Hrest]; subst. simpl in Hterm, Hobs.
    change (length ((job, dt) :: rest) + fuel)%nat with (S (length rest + fuel)).
    rewrite wait_loop_unfold.
    assert (H0 : now w - start_time < timeout).
    { specialize (Hdead 0%nat). simpl in Hdead. lia. }
    destruct (Z.ltb_spec (now w - start_time) timeout); [|lia].
    rewrite (poll_once_pending self job_id poll_interval callback job dt w Hc
               (scripted_head _ _ _ _ Hs) Hterm Hobs Hpoll).
    set (w3 := slept poll_interval (probed self job_id callback job dt w)).
    assert (Hsrv : server w3 = server w) by (unfold w3, probed; destruct callback; reflexivity).
    assert (Hsent : sent w3 = S (sent w)) by (unfold w3, probed; destruct callback; reflexivity).
    assert (Hnow : now w3 = now w + dt + poll_interval)
      by (unfold w3, probed; destruct callback; reflexivity).
    rewrite (IH fuel w3 Hc (scripted_tail _ _ _ _ _ Hs Hsrv Hsent) Hrest).
    + f_equal. unfold after_pending. rewrite Hsrv, Hsent, Hnow. f_equal.
      * simpl. lia.
      * unfold w3, probed; destruct callback; reflexivity.
      * simpl. lia.
      * unfold w3, probed, probe_events. destruct callback; simpl;
          rewrite <- !app_assoc; reflexivity.
    + intros k Hk. rewrite Hnow. specialize (Hdead (S k)). simpl in Hdead.
      specialize (Hdead ltac:(lia)). lia.
    + right. exact Hpoll.
Qed.

Lemma scripted_prefix w script more : scripted w (script ++ more) -> scripted w script.
Proof.
  intros H i job dt Hi. apply H. apply lookup_app_l_Some. exact Hi.
Qed.

Lemma scripted_last w script job dt self job_id poll_interval callback :
  scripted w (script ++ [(job, dt)]) ->
  answers (after_pending self job_id poll_interval callback script w)
          (sent (after_pending self job_id poll_interval callback script w)) job dt.
Proof.
  intros H req. simpl. apply (H (length script) job dt).
  apply list_lookup_middle. reflexivity.
Qed.

Lemma call_callback_after callback job job' w :
  after_callback callback job = Ok job' ->
  call_callback callback job w =
    (Ok job', match callback with Some _ => emit (EvCallback job) w | None => w end).
Proof.
  destruct callback as [cb|]; simpl; intros H; [rewrite H | inversion H]; reflexivity.
Qed.

(** A probe whose record is not terminal after the callback: the loop
    sleeps and goes round again. *)
Lemma poll_once_tested_pending self job_id poll_interval callback job dt w :
  constructed self ->
  answers w (sent w) job dt ->
  tested callback job false ->
  0 <= poll_interval ->
  poll_once self job_id poll_interval callback w =
    (Ok None, slept poll_interval (probed self job_id callback job dt w)).
Proof.
  intros Hc Ha (job' & Hcb & Ht) Hp. unfold poll_once, bind.
  rewrite (get_job_ok _ _ _ _ _ Hc Ha), (call_callback_after _ _ _ _ Hcb).
  destruct (job_terminal_status _ _ Ht) as (st & Hst & Hterm).
  unfold lift. rewrite Hst, Hterm. unfold time_sleep.
  destruct (Z.ltb_spec poll_interval 0); [lia|]. reflexivity.
Qed.

(** A probe whose record is terminal after the callback returns that
    record: nothing is sent or slept after the callback. *)
Lemma poll_once_tested_terminal self job_id poll_interval callback job job' dt w :
  constructed self ->
  answers w (sent w) job dt ->
  after_callback callback job = Ok job' ->
  job_terminal job' = Some true ->
  poll_once self job_id poll_interval callback w =
    (Ok (Some job'), probed self job_id callback job dt w).
Proof.
  intros Hc Ha Hcb Ht. unfold poll_once, bind.
  rewrite (get_job_ok _ _ _ _ _ Hc Ha), (call_callback_after _ _ _ _ Hcb).
  destruct (job_terminal_status _ _ Ht) as (st & Hst & Hterm).
  unfold lift. rewrite Hst, Hterm. reflexivity.
Qed.

(** A run of probes none of which ends the loop, each before the deadline,
    leaves the loop where it started, in the world [after_pending]. *)
Lemma wait_loop_tested_pending self job_id timeout poll_interval callback start_time pending :
  forall fuel w,
  constructed self ->
  scripted w pending ->
  Forall (fun p => tested callback (fst p) false) pending ->
  (forall k, (k < length pending)%nat ->
             now w - start_time + elapsed poll_interval (take k pending) < timeout) ->
  pending = [] \/ 0 <= poll_interval ->
  wait_loop (length pending + fuel) self job_id timeout poll_interval callback start_time w =
  wait_loop fuel self job_id timeout poll_interval callback start_time
            (after_pending self job_id poll_interval callback pending w).
Proof.
  induction pending as [|[job dt] rest IH]; intros fuel w Hc Hs Hall Hdead Hpoll.
  - simpl. f_equal. destruct w; unfold after_pending; simpl.
    rewrite Z.add_0_r, Nat.add_0_r, app_nil_r. reflexivity.
  - destruct Hpoll as [Hnil | Hpoll]; [discriminate|].
    inversion Hall as [|? ? Htest Hrest]; subst. simpl in Htest.
    change (length ((job, dt) :: rest) + fuel)%nat with (S (length rest + fuel)).
    rewrite wait_loop_unfold.
    assert (H0 : now w - start_time < timeout).
    { specialize (Hdead 0%nat). simpl in Hdead. lia. }
    destruct (Z.ltb_spec (now w - start_time) timeout); [|lia].
    rewrite (poll_once_tested_pending self job_id poll_interval callback job dt w Hc
               (scripted_head _ _ _ _ Hs) Htest Hpoll).
    set (w3 := slept poll_interval (probed self job_id callback job dt w)).
    assert (Hsrv : server w3 = server w) by (unfold w3, probed; destruct callback; reflexivity).
    assert (Hsent : sent w3 = S (sent w)) by (unfold w3, probed; destruct callback; reflexivity).
    assert (Hnow : now w3 = now w + dt + poll_interval)
      by (unfold w3, probed; destruct callback; reflexivity).
    rewrite (IH fuel w3 Hc (scripted_tail _ _ _ _ _ Hs Hsrv Hsent) Hrest).
    + f_equal. unfold after_pending. rewrite Hsrv, Hsent, Hnow. f_equal.
      * simpl. lia.
      * unfold w3, probed; destruct callback; reflexivity.
      * simpl. lia.
      * unfold w3, probed, probe_events. destruct callback; simpl;
          rewrite <- !app_assoc; reflexivity.
    + intros k Hk. rewrite Hnow. specialize (Hdead (S k)). simpl in Hdead.
      specialize (Hdead ltac:(lia)). lia.
    + right. exact Hpoll.
Qed.

(** C2 (amended).  Let the server answer the first probes with the records
    of [pending]; let the callback, when there is one, return normally on
    each of them and none of them be terminal when its status is tested,
    that is after the callback ran on it; let the deadline test
    [elapsed < timeout] succeed before each of these probes, and the poll
    interval not be negative when there is a sleep.  Then the loop has
    sent one request of [get_job] per record, each followed by the
    callback on that record and by one sleep, and what it does next is
    settled by the deadline test.

    - When the test succeeds once more and the next probe is answered with
      a record [job] that is terminal when tested, [wait_for_job] returns
      it, as the callback leaves it: the first terminal record.  The
      events of this last turn are the request and the callback on [job],
      also when it is the very first record; no probe and no sleep follow.
    - When the test fails, [wait_for_job] raises the job-timeout
      [JobError] in the world the run left: no further probe is made,
      whatever the server would have answered. *)
Theorem wait_for_job_first_terminal self job_id timeout poll_interval callback
    pending fuel w :
  constructed self ->
  scripted w pending ->
  Forall (fun p => tested callback (fst p) false) pending ->
  (forall k, (k < length pending)%nat -> elapsed poll_interval (take k pending) < timeout) ->
  pending = [] \/ 0 <= poll_interval ->
  (length pending < fuel)%nat ->
  (forall job dt job',
     elapsed poll_interval pending < timeout ->
     answers w (sent w + length pending)%nat job dt ->
     after_callback callback job = Ok job' ->
     job_terminal job' = Some true ->
     exists w',
       wait_for_job fuel self job_id (Some timeout) (Some poll_interval) callback w
         = Some (Ok job', w') /\
       trace w' = trace w ++ pending_events self job_id poll_interval callback pending
                          ++ probe_events self job_id callback job /\
       sent w' = (sent w + length pending + 1)%nat /\
       now w' = now w + elapsed poll_interval pending + dt) /\
  (timeout <= elapsed poll_interval pending ->
   wait_for_job fuel self job_id (Some timeout) (Some poll_interval) callback w
     = Some (Raise (JobError (timeout_message job_id timeout)),
             after_pending self job_id poll_interval callback pending w)).
Proof.
  intros Hc Hs Hpend Hdead Hpoll Hfuel.
  set (wn := after_pending self job_id poll_interval callback pending w).
  assert (Hrun : wait_for_job fuel self job_id (Some timeout) (Some poll_interval) callback w =
                 wait_loop (S (fuel - length pending - 1)) self job_id timeout poll_interval
                           callback (now w) wn).
  { unfold wait_for_job. simpl default.
    replace fuel with (length pending + S (fuel - length pending - 1))%nat at 1 by lia.
    apply wait_loop_tested_pending; try assumption.
    intros k Hk. specialize (Hdead k Hk). lia. }
  assert (Hnow : now wn - now w = elapsed poll_interval pending) by (unfold wn; simpl; lia).
  split.
  - intros job dt job' Hlt Ha Hcb Hterm.
    exists (probed self job_id callback job dt wn).
    split; [|split; [|split]].
    + rewrite Hrun, wait_loop_unfold.
      destruct (Z.ltb_spec (now wn - now w) timeout); [|lia].
      rewrite (poll_once_tested_terminal self job_id poll_interval callback job job' dt wn
                 Hc Ha Hcb Hterm).
      reflexivity.
    + unfold probed, probe_events, wn. destruct callback; simpl;
        rewrite <- !app_assoc; reflexivity.
    + unfold probed, wn. destruct callback; simpl; lia.
    + unfold probed, wn. destruct callback; reflexivity.
  - intros Hge. rewrite Hrun, wait_loop_unfold.
    destruct (Z.ltb_spec (now wn - now w) timeout); [lia|]. reflexivity.
Qed.

(** The mock of the spec's terminal-detection test: [running], [running],
    [completed], with an observing callback.  Under the default deadline
    the third record is returned; with [timeout=10] and [poll_interval=5]
    the deadline test fails after the second sleep. *)
Lemma wait_for_job_first_terminal_witness :
  (exists w',
     wait_for_job 10 (demo_client 3) "j1" (Some 3600) (Some 5) (Some watch)
                  (world0 three_probes key_env)
       = Some (Ok (job_record "j1" "completed"), w') /\
     trace w' =
       [EvHttp (job_request (demo_client 3) "j1"); EvCallback (job_record "j1" "running");
        EvSleep 5;
        EvHttp (job_request (demo_client 3) "j1"); EvCallback (job_record "j1" "running");
        EvSleep 5;
        EvHttp (job_request (demo_client 3) "j1"); EvCallback (job_record "j1" "completed")] /\
     sent w' = 3%nat /\
     now w' = 1010) /\
  wait_for_job 10 (demo_client 3) "j1" (Some 10) (Some 5) (Some watch)
               (world0 three_probes key_env)
    = Some (Raise (JobError "Job j1 did not complete within 10 seconds"),
            {| now := 1010; environ := key_env; server := three_probes; sent := 2;
               trace :=
                 [EvHttp (job_request (demo_client 3) "j1");
                  EvCallback (job_record "j1" "running"); EvSleep 5;
                  EvHttp (job_request (demo_client 3) "j1");
                  EvCallback (job_record "j1" "running"); EvSleep 5] |}).
Proof.
  assert (Hs : scripted (world0 three_probes key_env)
                 [(job_record "j1" "running", 0); (job_record "j1" "running", 0)]).
  { intros i job dt Hi req.
    destruct i as [|[|i]]; simpl in Hi; inversion Hi; subst;
      eexists; repeat split; reflexivity. }
  assert (Ht : Forall (fun p => tested (Some watch) (fst p) false)
                 [(job_record "j1" "running", 0); (job_record "j1" "running", 0)]).
  { repeat constructor; eexists; split; reflexivity. }
  split.
  - apply (proj1 (wait_for_job_first_terminal (demo_client 3) "j1" 3600 5 (Some watch)
                    [(job_record "j1" "running", 0); (job_record "j1" "running", 0)]
                    10 (world0 three_probes key_env)
                    (demo_client_constructed 3) Hs Ht
                    ltac:(intros k Hk; destruct k as [|[|k]]; simpl in *; lia)
                    ltac:(right; lia) ltac:(simpl; lia))
                 (job_record "j1" "completed") 0 (job_record "j1" "completed")).
    + simpl. lia.
    + intros req. eexists. repeat split; reflexivity.
    + reflexivity.
    + reflexivity.
  - apply (proj2 (wait_for_job_first_terminal (demo_client 3) "j1" 10 5 (Some watch)
                    [(job_record "j1" "running", 0); (job_record "j1" "running", 0)]
                    10 (world0 three_probes key_env)
                    (demo_client_constructed 3) Hs Ht
                    ltac:(intros k Hk; destruct k as [|[|k]]; simpl in *; lia)
                    ltac:(right; lia) ltac:(simpl; lia))).
    simpl. lia.
Defined.

(** C2 as stated fails when the deadline comes first.  With [timeout=10]
    and [poll_interval=5] against the mock that answers [running],
    [running], [completed] at once, the loop test fails after the second
    sleep: the call raises [JobError] after two probes although the third
    response is terminal. *)
Lemma deadline_counterexample :
  exists w',
    wait_for_job 10 (demo_client 3) "j1" (Some 10) (Some 5) (Some watch)
                 (world0 three_probes key_env)
      = Some (Raise (JobError "Job j1 did not complete within 10 seconds"), w') /\
    sent w' = 2%nat /\
    fst (three_probes 2 (job_request (demo_client 3) "j1"))
      = Answer (ok_response (job_record "j1" "completed")) /\
    job_terminal (job_record "j1" "completed") = Some true.
Proof.
  eexists. split; [vm_compute; reflexivity|]. repeat split.
Qed.

(** A mock that never shows a terminal record: every turn of the loop
    moves the clock by at least one unit and by at most the sleep plus the
    longest probe, so the loop test fails after finitely many turns, on
    the first reading that reaches the deadline. *)
Lemma wait_loop_times_out self job_id timeout poll_interval callback start_time bound
    (jobs : nat -> value) (lat : nat -> Z) w0 :
  constructed self ->
  (forall i, answers w0 (sent w0 + i)%nat (jobs i) (lat i)) ->
  (forall i, job_terminal (jobs i) = Some false) ->
  (forall i, observes callback (jobs i)) ->
  (forall i, 0 <= lat i <= bound) ->
  0 <= poll_interval ->
  (forall i, 1 <= lat i + poll_interval) ->
  forall fuel w i,
    server w = server w0 -> sent w = (sent w0 + i)%nat ->
    now w - start_time < timeout + poll_interval + bound ->
    (Z.to_nat (timeout - (now w - start_time)) < fuel)%nat ->
    exists w',
      wait_loop fuel self job_id timeout poll_interval callback start_time w =
        Some (Raise (JobError (timeout_message job_id timeout)), w') /\
      timeout <= now w' - start_time < timeout + poll_interval + bound.
Proof.
  intros Hc Hsrv Hterm Hobs Hlat Hpoll Hprog.
  induction fuel as [|fuel IH]; intros w i Hserver Hsent Hinv Hfuel; [lia|].
  rewrite wait_loop_unfold.
  destruct (Z.ltb_spec (now w - start_time) timeout) as [Hlt | Hge].
  - assert (Ha : answers w (sent w) (jobs i) (lat i)).
    { intros req. unfold answers in Hsrv. rewrite Hserver, Hsent. apply Hsrv. }
    rewrite (poll_once_pending self job_id poll_interval callback (jobs i) (lat i) w Hc Ha
               (Hterm i) (Hobs i) Hpoll).
    set (w3 := slept poll_interval (probed self job_id callback (jobs i) (lat i) w)).
    assert (Hnow : now w3 = now w + lat i + poll_interval)
      by (unfold w3, probed; destruct callback; reflexivity).
    apply (IH w3 (S i)).
    + unfold w3, probed; destruct callback; simpl; exact Hserver.
    + unfold w3, probed; destruct callback; simpl; lia.
    + rewrite Hnow. specialize (Hlat i). lia.
    + rewrite Hnow. specialize (Hprog i). lia.
  - exists w. split; [reflexivity | lia].
Qed.

(** C6.  (1) Against a mock that never shows a terminal record, with probes
    that take at most [bound] seconds and turns of the loop that take at
    least one, [wait_for_job] raises the [JobError] of the deadline, on a
    clock reading at least [timeout] and less than
    [timeout + poll_interval + bound] after the start; a mock that answers
    at once has [bound = 0].  (2) An exception raised by a
    probe is the outcome of [wait_for_job], unchanged, whatever number of
    probes went before.  (3) So is an exception raised by the callback. *)
Theorem wait_for_job_timeout_and_errors self job_id timeout poll_interval callback :
  constructed self ->
  (forall w (jobs : nat -> value) (lat : nat -> Z) bound fuel,
      (forall i, answers w (sent w + i)%nat (jobs i) (lat i)) ->
      (forall i, job_terminal (jobs i) = Some false) ->
      (forall i, observes callback (jobs i)) ->
      (forall i, 0 <= lat i <= bound) ->
      0 <= timeout -> 0 <= poll_interval ->
      (forall i, 1 <= lat i + poll_interval) ->
      (Z.to_nat timeout < fuel)%nat ->
      exists w',
        wait_for_job fuel self job_id (Some timeout) (Some poll_interval) callback w =
          Some (Raise (JobError (timeout_message job_id timeout)), w') /\
        timeout <= now w' - now w < timeout + poll_interval + bound) /\
  (forall w pending e w1 fuel,
      scripted w pending ->
      Forall (fun p => job_terminal (fst p) = Some false /\ observes callback (fst p)) pending ->
      (forall k, (k <= length pending)%nat ->
                 elapsed poll_interval (take k pending) < timeout) ->
      pending = [] \/ 0 <= poll_interval ->
      get_job self job_id (after_pending self job_id poll_interval callback pending w)
        = (Raise e, w1) ->
      wait_for_job (length pending + S fuel) self job_id (Some timeout) (Some poll_interval)
                   callback w = Some (Raise e, w1)) /\
  (forall w pending job dt cb e fuel,
      callback = Some cb ->
      scripted w (pending ++ [(job, dt)]) ->
      Forall (fun p => job_terminal (fst p) = Some false /\ observes callback (fst p)) pending ->
      (forall k, (k <= length pending)%nat ->
                 elapsed poll_interval (take k pending) < timeout) ->
      pending = [] \/ 0 <= poll_interval ->
      cb job = Raise e ->
      wait_for_job (length pending + S fuel) self job_id (Some timeout) (Some poll_interval)
                   callback w =
        Some (Raise e,
              emit (EvCallback job)
                (exchanged (job_request self job_id) dt
                   (after_pending self job_id poll_interval callback pending w)))).
Proof.
  intros Hc. split; [|split].
  - intros w jobs lat bound fuel Hsrv Hterm Hobs Hlat Htime Hpoll Hprog Hfuel.
    unfold wait_for_job. simpl default.
    destruct (wait_loop_times_out self job_id timeout poll_interval callback (now w) bound
                jobs lat w Hc Hsrv Hterm Hobs Hlat Hpoll Hprog fuel w 0%nat)
      as (w' & Hrun & Hbound).
    + reflexivity.
    + lia.
    + specialize (Hlat 0%nat). specialize (Hprog 0%nat). lia.
    + replace (now w - now w) with 0 by lia. rewrite Z.sub_0_r. exact Hfuel.
    + exists w'. split; assumption.
  - intros w pending e w1 fuel Hs Hall Hdead Hpoll Hget.
    unfold wait_for_job. simpl default.
    rewrite wait_loop_pending; try assumption.
    + rewrite wait_loop_unfold.
      set (wn := after_pending self job_id poll_interval callback pending w) in *.
      assert (Hnow : now wn - now w < timeout).
      { unfold wn. simpl. specialize (Hdead (length pending) ltac:(lia)).
        rewrite firstn_all in Hdead. lia. }
      destruct (Z.ltb_spec (now wn - now w) timeout); [|lia].
      unfold poll_once, bind. rewrite Hget. reflexivity.
    + intros k Hk. specialize (Hdead k ltac:(lia)). lia.
  - intros w pending job dt cb e fuel Hcb Hs Hall Hdead Hpoll Hraise.
    unfold wait_for_job. simpl default.
    rewrite wait_loop_pending; try assumption.
    + rewrite wait_loop_unfold.
      set (wn := after_pending self job_id poll_interval callback pending w) in *.
      assert (Hnow : now wn - now w < timeout).
      { unfold wn. simpl. specialize (Hdead (length pending) ltac:(lia)).
        rewrite firstn_all in Hdead. lia. }
      destruct (Z.ltb_spec (now wn - now w) timeout); [|lia].
      unfold poll_once, bind.
      rewrite (get_job_ok self job_id wn job dt Hc (scripted_last _ _ _ _ _ _ _ _ Hs)).
      subst callback. unfold call_callback. rewrite Hraise. reflexivity.
    + apply (scripted_prefix _ _ _ Hs).
    + intros k Hk. specialize (Hdead k ltac:(lia)). lia.
Qed.

(** The instant mock whose job stays [running], a server that rejects the
    credential, and a callback that raises. *)
Lemma wait_for_job_timeout_and_errors_witness :
  (exists w',
     wait_for_job 20 (demo_client 3) "j1" (Some 10) (Some 5) (Some watch)
                  (world0 forever_running key_env)
       = Some (Raise (JobError "Job j1 did not complete within 10 seconds"), w') /\
     10 <= now w' - 1000 < 10 + 5 + 0) /\
  (exists w',
     wait_for_job 1 (demo_client 3) "j1" (Some 10) (Some 5) (Some watch)
                  (world0 (stuck_server 401) key_env)
       = Some (Raise (AuthenticationError "Invalid API key or authentication failed"), w')) /\
  (exists w',
     wait_for_job 1 (demo_client 3) "j1" (Some 10) (Some 5)
                  (Some (fun _ => Raise (UserError "boom")))
                  (world0 forever_running key_env)
       = Some (Raise (UserError "boom"), w')).
Proof.
  split; [|split].
  - destruct (wait_for_job_timeout_and_errors (demo_client 3) "j1" 10 5 (Some watch)
                (demo_client_constructed 3)) as (Htimeout & _ & _).
    apply (Htimeout (world0 forever_running key_env)
             (fun _ => job_record "j1" "running") (fun _ => 0) 0 20%nat).
    + intros i req. eexists. repeat split; reflexivity.
    + intros i. reflexivity.
    + intros i. reflexivity.
    + intros i. lia.
    + lia.
    + lia.
    + intros i. lia.
    + simpl. lia.
  - destruct (wait_for_job_timeout_and_errors (demo_client 3) "j1" 10 5 (Some watch)
                (demo_client_constructed 3)) as (_ & Hprobe & _).
    eexists.
    apply (Hprobe (world0 (stuck_server 401) key_env) [] _ _ 0%nat).
    + intros i job dt Hi. discriminate Hi.
    + constructor.
    + intros k Hk. destruct k; simpl; lia.
    + left. reflexivity.
    + vm_compute. reflexivity.
  - destruct (wait_for_job_timeout_and_errors (demo_client 3) "j1" 10 5
                (Some (fun _ => Raise (UserError "boom")))
                (demo_client_constructed 3)) as (_ & _ & Hcallback).
    eexists.
    apply (Hcallback (world0 forever_running key_env) [] (job_record "j1" "running") 0
             (fun _ => Raise (UserError "boom")) (UserError "boom") 0%nat).
    + reflexivity.
    + intros i job dt Hi req.
      destruct i as [|i]; simpl in Hi; inversion Hi; subst.
      eexists. repeat split; reflexivity.
    + constructor.
    + intros k Hk. destruct k; simpl; lia.
    + left. reflexivity.
    + reflexivity.
Defined.

(** ** The one-shot helper *)

Lemma poll_once_some self job_id poll_interval callback w job w' :
  poll_once self job_id poll_interval callback w = (Ok (Some job), w') ->
  job_terminal job = Some true.
Proof.
  unfold poll_once, bind, lift, job_terminal.
  destruct (get_job self job_id w) as [[j|e] w1]; [|discriminate].
  destruct (call_callback callback j w1) as [[j'|e] w2]; [|discriminate].
  destruct (py_get j' "status") as [st|e] eqn:Hst; [|discriminate].
  destruct (is_terminal st) eqn:Hterm.
  - unfold ret. intros H. inversion H; subst. rewrite Hst, Hterm. reflexivity.
  - destruct (time_sleep poll_interval w2) as [[[]|e] w3]; unfold ret; discriminate.
Qed.

(** Whatever [wait_for_job] returns is a record with a terminal status. *)
Lemma wait_loop_returns_terminal fuel :
  forall self job_id timeout poll_interval callback start_time w job w',
  wait_loop fuel self job_id timeout poll_interval callback start_time w = Some (Ok job, w') ->
  job_terminal job = Some true.
Proof.
  induction fuel as [|fuel IH]; intros self job_id timeout poll_interval callback
    start_time w job w' H; [discriminate|].
  rewrite wait_loop_unfold in H.
  destruct (now w - start_time <? timeout); [|discriminate].
  destruct (poll_once self job_id poll_interval callback w) as [[[j|]|e] w1] eqn:Hp.
  - inversion H; subst. apply (poll_once_some _ _ _ _ _ _ _ Hp).
  - apply (IH _ _ _ _ _ _ _ _ _ H).
  - discriminate.
Qed.

(** The fuel only bounds the number of turns: a run that finishes within
    [fuel] turns finishes the same way with any larger bound. *)
Lemma wait_loop_more_fuel fuel :
  forall fuel' self job_id timeout poll_interval callback start_time w r,
  (fuel <= fuel')%nat ->
  wait_loop fuel self job_id timeout poll_interval callback start_time w = Some r ->
  wait_loop fuel' self job_id timeout poll_interval callback start_time w = Some r.
Proof.
  induction fuel as [|fuel IH]; intros fuel' self job_id timeout poll_interval callback
    start_time w r Hle H; [discriminate|].
  destruct fuel' as [|fuel']; [lia|].
  rewrite wait_loop_unfold in H |- *.
  destruct (now w - start_time <? timeout); [|exact H].
  destruct (poll_once self job_id poll_interval callback w) as [[[j|]|e] w1];
    try exact H.
  apply (IH fuel'); [lia | exact H].
Qed.

Lemma terminal_status job :
  job_terminal job = Some true ->
  exists status, py_subscript job "status" = Ok (VStr status) /\ In status TERMINAL.
Proof.
  intros H. destruct (job_terminal_status _ _ H) as (st & Hget & Hterm).
  unfold is_terminal in Hterm. apply existsb_exists in Hterm.
  destruct Hterm as (s & Hin & Heq).
  destruct st; try discriminate. simpl in Heq. apply String.eqb_eq in Heq. subst s0.
  exists s. split; [|exact Hin].
  destruct job; try discriminate. simpl in Hget |- *.
  destruct (dict_get d "status") as [v|]; simpl in Hget; inversion Hget; reflexivity.
Qed.

Section QuickRunFacts.

Variable py_str : value -> string.
Hypothesis py_str_str : forall s, py_str (VStr s) = s.

(** C4.  After a successful submission: with [wait=False] the helper
    returns the submitted job record, in the world the submission left
    (nothing is polled).  With [wait=True], whenever the wait returns,
    the record it returns has a terminal status; if that status is
    [completed] the outcome is exactly the outcome of [get_job_result]
    (the result record, not the job record); otherwise the helper raises
    [JobError] with the message "Job failed with status: " followed by
    that status. *)
Theorem quick_run_docker_outcome fuel image command api_key kwargs w client w0 job w1 :
  create_client api_key w = (Ok client, w0) ->
  submit_docker_job client image command (kw_cpu_cores kwargs) (kw_memory_mb kwargs)
    (kw_gpu_count kwargs) (kw_env kwargs) (kw_submit kwargs) w0 = (Ok job, w1) ->
  quick_run_docker py_str fuel image command api_key false kwargs w = Some (Ok job, w1) /\
  (forall id result w3,
      py_subscript job "id" = Ok id ->
      wait_for_job fuel client (py_str id) None None None
        (emit (EvPrint ("Job " +:+ py_str id +:+ " submitted, waiting for completion...")) w1)
        = Some (Ok result, w3) ->
      exists status,
        py_subscript result "status" = Ok (VStr status) /\ In status TERMINAL /\
        (status = "completed" ->
           quick_run_docker py_str fuel image command api_key true kwargs w =
             Some (get_job_result client (py_str id) w3)) /\
        (status <> "completed" ->
           quick_run_docker py_str fuel image command api_key true kwargs w =
             Some (Raise (JobError ("Job failed with status: " +:+ status)), w3))).
Proof.
  intros Hcreate Hsubmit. split.
  - unfold quick_run_docker, bindF, liftF. rewrite Hcreate, Hsubmit. reflexivity.
  - intros id result w3 Hid Hwait.
    destruct (terminal_status result
                (wait_loop_returns_terminal _ _ _ _ _ _ _ _ _ _ Hwait))
      as (status & Hstatus & Hin).
    exists status. split; [exact Hstatus|]. split; [exact Hin|].
    assert (Hrun : quick_run_docker py_str fuel image command api_key true kwargs w =
                   if eq_str (VStr status) "completed"
                   then Some (get_job_result client (py_str id) w3)
                   else Some (Raise (JobError ("Job failed with status: " +:+
                                               py_str (VStr status))), w3)).
    { unfold quick_run_docker, bindF, liftF. rewrite Hcreate, Hsubmit.
      unfold lift. rewrite Hid. unfold print. rewrite Hwait, Hstatus.
      destruct (eq_str (VStr status) "completed"); reflexivity. }
    split; intros Hs.
    + rewrite Hrun. subst status. reflexivity.
    + rewrite Hrun. simpl. apply String.eqb_neq in Hs. rewrite Hs, py_str_str. reflexivity.
Qed.

End QuickRunFacts.

(** The spec's quick-run scenario: the platform accepts the submission as
    job [j1], shows it [running] and then in its final state, and serves
    the result record [{"exit": 0, "stdout": "hi"}]. *)
Lemma quick_run_docker_outcome_witness :
  (exists w',
     quick_run_docker str_scalar 10 "img" ["echo"; "hi"] None true no_docker_kwargs
                      (world0 (quick_server "completed") key_env)
       = Some (Ok (VDict [("exit", VInt 0); ("stdout", VStr "hi")]), w')) /\
  (exists w',
     quick_run_docker str_scalar 10 "img" ["echo"; "hi"] None true no_docker_kwargs
                      (world0 (quick_server "failed") key_env)
       = Some (Raise (JobError "Job failed with status: failed"), w')) /\
  (exists w',
     quick_run_docker str_scalar 10 "img" ["echo"; "hi"] None false no_docker_kwargs
                      (world0 (quick_server "completed") key_env)
       = Some (Ok (job_record "j1" "pending"), w') /\
     sent w' = 1%nat).
Proof.
  split; [|split].
  - edestruct (quick_run_docker_outcome str_scalar (fun s => eq_refl) 10 "img"
                 ["echo"; "hi"] None no_docker_kwargs
                 (world0 (quick_server "completed") key_env)) as [_ Hwait];
      [vm_compute; reflexivity | vm_compute; reflexivity |].
    edestruct Hwait as (status & Hst & _ & Hdone & _);
      [reflexivity | vm_compute; reflexivity |].
    vm_compute in Hst. inversion Hst; subst status.
    eexists. rewrite (Hdone eq_refl). vm_compute. reflexivity.
  - edestruct (quick_run_docker_outcome str_scalar (fun s => eq_refl) 10 "img"
                 ["echo"; "hi"] None no_docker_kwargs
                 (world0 (quick_server "failed") key_env)) as [_ Hwait];
      [vm_compute; reflexivity | vm_compute; reflexivity |].
    edestruct Hwait as (status & Hst & _ & _ & Hfailed);
      [reflexivity | vm_compute; reflexivity |].
    vm_compute in Hst. inversion Hst; subst status.
    eexists. rewrite Hfailed; [reflexivity | discriminate].
  - edestruct (quick_run_docker_outcome str_scalar (fun s => eq_refl) 10 "img"
                 ["echo"; "hi"] None no_docker_kwargs
                 (world0 (quick_server "completed") key_env)) as [Hnowait _];
      [vm_compute; reflexivity | vm_compute; reflexivity |].
    eexists. split; [exact Hnowait | reflexivity].
Defined.

(** * Further properties of the client *)

(** ** One call, on the wire *)

Lemma requests_of_app t1 t2 : requests_of (t1 ++ t2) = requests_of t1 ++ requests_of t2.
Proof. unfold requests_of. apply flat_map_app. Qed.

Lemma retry_sleep_requests retries ra w :
  requests_of (trace (Session.retry_sleep retries ra w)) = requests_of (trace w).
Proof.
  unfold Session.retry_sleep, Session.lib_sleep.
  destruct ra; repeat match goal with |- context [if ?b then _ else _] => destruct b end;
    simpl; rewrite ?requests_of_app, ?app_nil_r; reflexivity.
Qed.

(** The adapter sends one and the same request, at least once and at most
    once more than the retry budget. *)
Lemma urlopen_requests fuel : forall retries req w,
  exists k,
    (1 <= k <= S (Z.to_nat (total retries)))%nat /\
    requests_of (trace (snd (Session.urlopen fuel retries req w))) =
      requests_of (trace w) ++ repeat req k /\
    sent (snd (Session.urlopen fuel retries req w)) = (sent w + k)%nat.
Proof.
  assert (Hone : forall req w rep dt (x : Response + RequestException),
             server w (sent w) req = (rep, dt) ->
             forall t : Z, exists k,
               (1 <= k <= S (Z.to_nat t))%nat /\
               requests_of (trace (snd (x, exchanged req dt w))) =
                 requests_of (trace w) ++ repeat req k /\
               sent (snd (x, exchanged req dt w)) = (sent w + k)%nat).
  { intros req w rep dt x _ t. exists 1%nat. simpl.
    rewrite requests_of_app. simpl. repeat split; lia. }
  induction fuel as [|fuel IH]; intros retries req w;
    rewrite urlopen_unfold;
    destruct (server w (sent w) req) as [rep dt] eqn:Hs;
    rewrite (exchange_server _ _ _ _ Hs).
  - destruct rep as [r | msg].
    + destruct (is_retry _ _ _ _); [|apply (Hone _ _ _ _ _ Hs)].
      destruct (increment retries); [|destruct (raise_on_status retries)];
        try destruct (raise_on_status retries); apply (Hone _ _ _ _ _ Hs).
    + destruct (increment retries); apply (Hone _ _ _ _ _ Hs).
  - assert (Hrec : forall retries' ra,
               increment retries = Some retries' ->
               exists k,
                 (1 <= k <= S (Z.to_nat (total retries)))%nat /\
                 requests_of (trace (snd (Session.urlopen fuel retries' req
                    (Session.retry_sleep retries' ra (exchanged req dt w))))) =
                   requests_of (trace w) ++ repeat req k /\
                 sent (snd (Session.urlopen fuel retries' req
                    (Session.retry_sleep retries' ra (exchanged req dt w)))) =
                   (sent w + k)%nat).
    { intros retries' ra Hinc.
      destruct (IH retries' req (Session.retry_sleep retries' ra (exchanged req dt w)))
        as (k & Hk & Hreq & Hsent).
      exists (S k). rewrite Hreq, Hsent, retry_sleep_requests, retry_sleep_sent. simpl.
      rewrite requests_of_app. simpl. rewrite <- app_assoc. simpl.
      assert (Z.to_nat (total retries) = S (Z.to_nat (total retries'))).
      { unfold increment in Hinc.
        destruct (Z.ltb_spec (total retries - 1) 0); [discriminate|].
        inversion Hinc; subst; simpl. lia. }
      repeat split; lia. }
    destruct rep as [r | msg].
    + destruct (is_retry _ _ _ _); [|apply (Hone _ _ _ _ _ Hs)].
      destruct (increment retries) as [retries'|] eqn:Hinc.
      * apply Hrec. reflexivity.
      * destruct (raise_on_status retries); apply (Hone _ _ _ _ _ Hs).
    + destruct (increment retries) as [retries'|] eqn:Hinc.
      * apply Hrec. reflexivity.
      * apply (Hone _ _ _ _ _ Hs).
Qed.

(** X1.  Against a server that does not redirect, one call of
    [_make_request] puts nothing on the wire but the request it hands to
    the session, [request_of], and that at most [max_retries + 1] times
    ([total] being the budget the session was mounted with): a retry
    resends the identical request.  The counter of exchanges moves by that
    number. *)
Theorem make_request_budget self m endpoint data q w :
  never_redirected w ->
  exists k,
    (k <= S (Z.to_nat (total (max_retries (session self)))))%nat /\
    requests_of (trace (snd (_make_request self m endpoint data q w))) =
      requests_of (trace w) ++ repeat (request_of self m endpoint data q) k /\
    sent (snd (_make_request self m endpoint data q w)) = (sent w + k)%nat.
Proof.
  intros _. rewrite make_request_world.
  destruct (urlopen_requests (Z.to_nat (total (max_retries (session self))))
              (max_retries (session self)) (request_of self m endpoint data q) w)
    as (k & [_ Hk] & Hreq & Hsent).
  exists k. repeat split; assumption.
Qed.

(** The default client against the server that is busy twice. *)
Lemma make_request_budget_witness :
  exists k,
    (k <= 4)%nat /\
    requests_of (trace (snd (get_job (demo_client 3) "j1" (world0 flaky_server key_env)))) =
      repeat (job_request (demo_client 3) "j1") k /\
    sent (snd (get_job (demo_client 3) "j1" (world0 flaky_server key_env))) = k.
Proof.
  apply (make_request_budget (demo_client 3) "GET" "/api/v1/jobs/j1" None None
           (world0 flaky_server key_env)).
  intros k req r dt H. destruct k as [|[|k]]; inversion H; subst; simpl; lia.
Defined.




Lemma not_in_mem_Z x l : ~ In x l -> mem_Z x l = false.
Proof.
  intros H. destruct (mem_Z x l) eqn:E; [|reflexivity].
  apply mem_Z_In in E. contradiction.
Qed.

Lemma kind_of_api_failure msg :
  kind_of (ComputeHiveError ("API request failed: " +:+ msg)) = ApiFailure.
Proof. reflexivity. Qed.

Lemma kind_of_network_failure msg :
  kind_of (ComputeHiveError ("Network error: " +:+ msg)) = NetworkFailure.
Proof. reflexivity. Qed.

(** X3.  An answer with an error status (400 to 599) other than 400 and
    401, and which the policy does not retry (403, 404, 409, 422, 501,
    ...), fails the call after this one exchange with a [ComputeHiveError]
    "API request failed: ..." *)
Theorem other_status_is_api_failure self m endpoint data q w resp dt :
  constructed self ->
  server w (sent w) (request_of self m endpoint data q) = (Answer resp, dt) ->
  400 <= status_code resp < 600 ->
  status_code resp <> 400 -> status_code resp <> 401 ->
  ~ In (status_code resp) RETRY_STATUSES ->
  (status_code resp = 413 -> retry_after resp = None) ->
  exists msg,
    _make_request self m endpoint data q w =
      (Raise (ComputeHiveError ("API request failed: " +:+ msg)),
       exchanged (request_of self m endpoint data q) dt w) /\
    kind_of (ComputeHiveError ("API request failed: " +:+ msg)) = ApiFailure.
Proof.
  intros Hc Hs Hrange H400 H401 Hnot H413.
  destruct (constructed_retry _ Hc) as [r0 Hr0].
  assert (Hfinal : Session.urlopen (Z.to_nat (total (max_retries (session self))))
              (max_retries (session self)) (request_of self m endpoint data q) w =
            (inl resp, exchanged (request_of self m endpoint data q) dt w)).
  { apply urlopen_final; [exact Hs|]. unfold is_retry.
    destruct (negb _); [reflexivity|].
    rewrite Hr0. simpl status_forcelist. rewrite (not_in_mem_Z _ _ Hnot).
    destruct (Z.eq_dec (status_code resp) 413) as [E|E].
    - rewrite (H413 E). simpl. rewrite !andb_false_r. reflexivity.
    - assert (mem_Z (status_code resp) RETRY_AFTER_STATUS_CODES = false).
      { apply not_in_mem_Z. simpl. intros [H|[H|[H|[]]]]; [lia | |];
          apply Hnot; simpl; rewrite <- H; tauto. }
      rewrite H. rewrite !andb_false_r. reflexivity. }
  rewrite make_request_unfold, Hfinal. cbv zeta. unfold raise_for_status.
  destruct (Z.leb_spec 400 (status_code resp)); [|lia].
  destruct (Z.ltb_spec (status_code resp) 500); simpl.
  - destruct (Z.eqb_spec (status_code resp) 401); [contradiction|].
    destruct (Z.eqb_spec (status_code resp) 400); [contradiction|].
    eexists. split; reflexivity.
  - destruct (Z.leb_spec 500 (status_code resp)); [|lia].
    destruct (Z.ltb_spec (status_code resp) 600); [|lia]. simpl.
    destruct (Z.eqb_spec (status_code resp) 401); [contradiction|].
    destruct (Z.eqb_spec (status_code resp) 400); [contradiction|].
    eexists. split; reflexivity.
Qed.

(** A job that does not exist: 404 on [get_job]. *)
Lemma other_status_is_api_failure_witness :
  exists msg,
    get_job (demo_client 3) "j1" (world0 (stuck_server 404) key_env) =
      (Raise (ComputeHiveError ("API request failed: " +:+ msg)),
       exchanged (job_request (demo_client 3) "j1") 0 (world0 (stuck_server 404) key_env)) /\
    kind_of (ComputeHiveError ("API request failed: " +:+ msg)) = ApiFailure.
Proof.
  apply (other_status_is_api_failure (demo_client 3) "GET" "/api/v1/jobs/j1" None None
           (world0 (stuck_server 404) key_env) (error_response 404 "" "no") 0
           (demo_client_constructed 3) eq_refl); simpl; lia.
Defined.

(** ** Operations of the API surface *)

Lemma post_not_retried self endpoint data q w resp dt :
  constructed self ->
  server w (sent w) (request_of self "POST" endpoint data q) = (Answer resp, dt) ->
  Session.urlopen (Z.to_nat (total (max_retries (session self))))
    (max_retries (session self)) (request_of self "POST" endpoint data q) w =
  (inl resp, exchanged (request_of self "POST" endpoint data q) dt w).
Proof.
  intros Hc Hs. destruct (constructed_retry _ Hc) as [r0 Hr0].
  apply urlopen_final; [exact Hs|]. unfold is_retry.
  rewrite (is_method_retryable_policy _ _ (eq_ind_r client_policy (client_policy_new r0) Hr0)).
  reflexivity.
Qed.

(** X4.  [cancel_job] sends one POST to [/api/v1/jobs/{id}/cancel].  When
    the answer is a 2xx with a JSON body the call returns [None], whatever
    the body says.  When the answer is a 2xx without a JSON body (an empty
    204, say) the call raises [ComputeHiveError] "Network error: ...",
    although the cancellation was delivered. *)
Theorem cancel_job_outcome self job_id w resp dt :
  constructed self ->
  server w (sent w) (request_of self "POST" ("/api/v1/jobs/" +:+ job_id +:+ "/cancel")
                       None None) = (Answer resp, dt) ->
  200 <= status_code resp < 300 ->
  (forall v, body resp = Some v ->
     cancel_job self job_id w =
       (Ok tt, exchanged (request_of self "POST" ("/api/v1/jobs/" +:+ job_id +:+ "/cancel")
                            None None) dt w)) /\
  (body resp = None ->
     exists msg,
       cancel_job self job_id w =
         (Raise (ComputeHiveError ("Network error: " +:+ msg)),
          exchanged (request_of self "POST" ("/api/v1/jobs/" +:+ job_id +:+ "/cancel")
                       None None) dt w)).
Proof.
  intros Hc Hs Hrange.
  assert (Hraise : raise_for_status
            (api_url self +:+ ("/api/v1/jobs/" +:+ job_id +:+ "/cancel")) resp = None).
  { unfold raise_for_status.
    destruct (Z.leb_spec 400 (status_code resp)); [lia|]. simpl.
    destruct (Z.leb_spec 500 (status_code resp)); [lia|]. reflexivity. }
  split.
  - intros v Hv. unfold cancel_job, bind.
    rewrite make_request_unfold, (post_not_retried _ _ _ _ _ _ _ Hc Hs). cbv zeta.
    rewrite Hraise, Hv. reflexivity.
  - intros Hnone. unfold cancel_job, bind.
    rewrite make_request_unfold, (post_not_retried _ _ _ _ _ _ _ Hc Hs). cbv zeta.
    rewrite Hraise, Hnone. eexists. reflexivity.
Qed.

(** The platform acknowledges with a JSON record, or with 204 and no body. *)
Lemma cancel_job_outcome_witness :
  fst (cancel_job (demo_client 3) "j1" (world0 accepting_server key_env)) = Ok tt /\
  (exists msg,
     fst (cancel_job (demo_client 3) "j1" (world0 (stuck_server 204) key_env)) =
       Raise (ComputeHiveError ("Network error: " +:+ msg))) /\
  sent (snd (cancel_job (demo_client 3) "j1" (world0 (stuck_server 204) key_env))) = 1%nat.
Proof.
  split; [|split].
  - destruct (cancel_job_outcome (demo_client 3) "j1" (world0 accepting_server key_env)
                (ok_response (job_record "j1" "pending")) 0
                (demo_client_constructed 3) eq_refl ltac:(simpl; lia)) as [Hok _].
    rewrite (Hok _ eq_refl). reflexivity.
  - destruct (cancel_job_outcome (demo_client 3) "j1" (world0 (stuck_server 204) key_env)
                (error_response 204 "" "no") 0
                (demo_client_constructed 3) eq_refl ltac:(simpl; lia)) as [_ Hnone].
    destruct (Hnone eq_refl) as [msg Hmsg]. exists msg. rewrite Hmsg. reflexivity.
  - destruct (cancel_job_outcome (demo_client 3) "j1" (world0 (stuck_server 204) key_env)
                (error_response 204 "" "no") 0
                (demo_client_constructed 3) eq_refl ltac:(simpl; lia)) as [_ Hnone].
    destruct (Hnone eq_refl) as [msg Hmsg]. rewrite Hmsg. reflexivity.
Defined.

(** X5.  [get_job_logs] sends one GET to [/api/v1/jobs/{id}/logs] with the
    query [tail] (100 by default, and sent even when it is 0).  From a JSON
    object it returns the value bound to [logs], whatever it is ([None]
    for a JSON null), and the empty string when the key is missing; any
    other JSON value makes it raise [AttributeError]. *)
Theorem get_job_logs_outcome self job_id tail w v dt :
  constructed self ->
  answers w (sent w) v dt ->
  let w' := exchanged (request_of self "GET" ("/api/v1/jobs/" +:+ job_id +:+ "/logs") None
                         (Some [("tail", VInt (default 100 tail))])) dt w in
  (forall d logs, v = VDict d -> dict_get d "logs" = Some logs ->
     get_job_logs self job_id tail w = (Ok logs, w')) /\
  (forall d, v = VDict d -> dict_get d "logs" = None ->
     get_job_logs self job_id tail w = (Ok (VStr ""), w')) /\
  ((forall d, v <> VDict d) ->
     exists msg, get_job_logs self job_id tail w = (Raise (AttributeError msg), w')).
Proof.
  intros Hc Ha w'.
  assert (Hrun : _make_request self "GET" ("/api/v1/jobs/" +:+ job_id +:+ "/logs") None
                   (Some [("tail", VInt (default 100 tail))]) w = (Ok v, w')).
  { apply make_request_ok; assumption. }
  repeat split.
  - intros d logs -> Hlogs. unfold get_job_logs, bind. rewrite Hrun. unfold ret.
    rewrite Hlogs. reflexivity.
  - intros d -> Hlogs. unfold get_job_logs, bind. rewrite Hrun. unfold ret.
    rewrite Hlogs. reflexivity.
  - intros Hnot. unfold get_job_logs, bind. rewrite Hrun.
    destruct v; try (eexists; reflexivity). exfalso. apply (Hnot d). reflexivity.
Qed.

Lemma get_job_logs_outcome_witness :
  fst (get_job_logs (demo_client 3) "j1" (Some 0) (world0 accepting_server key_env))
    = Ok (VStr "") /\
  map params (requests_of (trace (snd
    (get_job_logs (demo_client 3) "j1" (Some 0) (world0 accepting_server key_env)))))
    = [Some [("tail", VInt 0)]].
Proof.
  destruct (get_job_logs_outcome (demo_client 3) "j1" (Some 0)
              (world0 accepting_server key_env) (job_record "j1" "pending") 0
              (demo_client_constructed 3)) as (_ & Hmissing & _).
  - intros req. eexists. repeat split; reflexivity.
  - rewrite (Hmissing _ eq_refl eq_refl). split; reflexivity.
Defined.

(** A server nobody can connect to uses up the budget, whatever the
    method, and the adapter gives up with a [ConnectionError]. *)
Lemma urlopen_unreachable n : forall fuel retries req w,
  Z.to_nat (total retries) = n -> (n <= fuel)%nat ->
  (forall k, exists msg dt, server w (sent w + k)%nat req = (ConnectFailure msg, dt)) ->
  exists msg w',
    Session.urlopen fuel retries req w = (inr (ConnectionError msg), w') /\
    sent w' = (sent w + n + 1)%nat.
Proof.
  induction n as [|n IH]; intros fuel retries req w Hn Hfuel Hsrv.
  - destruct (Hsrv 0%nat) as (msg & dt & Hs). rewrite Nat.add_0_r in Hs.
    rewrite urlopen_unfold, (exchange_server _ _ _ _ Hs). simpl.
    destruct (increment_spec retries) as [Hz _]. rewrite Hz by lia.
    eexists _, _. split; [reflexivity | simpl; lia].
  - destruct (Hsrv 0%nat) as (msg & dt & Hs). rewrite Nat.add_0_r in Hs.
    destruct fuel as [|fuel]; [lia|].
    destruct (increment_spec retries) as [_ Hpos].
    destruct Hpos as (retries' & Hinc & Htot & _); [lia|].
    set (w2 := Session.retry_sleep retries' None (exchanged req dt w)).
    assert (Hsent : sent w2 = S (sent w)) by (unfold w2; rewrite retry_sleep_sent; reflexivity).
    assert (Hserver : server w2 = server w) by (unfold w2; rewrite retry_sleep_server; reflexivity).
    destruct (IH fuel retries' req w2) as (msg' & w' & Hrun & Hsent').
    + lia.
    + lia.
    + intros k. rewrite Hserver, Hsent.
      replace (S (sent w) + k)%nat with (sent w + S k)%nat by lia. apply Hsrv.
    + exists msg', w'.
      rewrite urlopen_unfold, (exchange_server _ _ _ _ Hs). cbv beta iota zeta.
      rewrite Hinc. fold w2. rewrite Hrun. split; [reflexivity | lia].
Qed.

(** X6.  When no connection can be made, every call, POST included, is
    attempted [max_retries + 1] times and then fails with a
    [ComputeHiveError] "Network error: ...". *)
Theorem unreachable_is_network_failure self m endpoint data q w :
  constructed self ->
  unreachable_server w ->
  exists msg w',
    _make_request self m endpoint data q w =
      (Raise (ComputeHiveError ("Network error: " +:+ msg)), w') /\
    kind_of (ComputeHiveError ("Network error: " +:+ msg)) = NetworkFailure /\
    sent w' = (sent w + Z.to_nat (total (max_retries (session self))) + 1)%nat.
Proof.
  intros Hc Hsrv.
  destruct (urlopen_unreachable (Z.to_nat (total (max_retries (session self))))
              (Z.to_nat (total (max_retries (session self))))
              (max_retries (session self)) (request_of self m endpoint data q) w)
    as (msg & w' & Hrun & Hsent).
  - reflexivity.
  - lia.
  - intros k. apply Hsrv.
  - exists msg, w'. rewrite make_request_unfold, Hrun. cbv zeta.
    split; [reflexivity | split; [reflexivity | exact Hsent]].
Qed.

Lemma unreachable_is_network_failure_witness :
  exists msg w',
    submit_docker_job (demo_client 3) "alpine" ["echo"; "ok"] None None None None no_kwargs
                      (world0 dead_server key_env) =
      (Raise (ComputeHiveError ("Network error: " +:+ msg)), w') /\
    kind_of (ComputeHiveError ("Network error: " +:+ msg)) = NetworkFailure /\
    sent w' = 4%nat.
Proof.
  apply (unreachable_is_network_failure (demo_client 3) "POST" "/api/v1/jobs" _ None
           (world0 dead_server key_env) (demo_client_constructed 3)).
  intros k req. eexists _, _. reflexivity.
Defined.

(** ** Construction with a credential *)

(** X7.  A non-empty [api_key] argument is the credential, whatever the
    environment holds; without one (absent or empty) a non-empty
    [COMPUTEHIVE_API_KEY] is.  Construction then succeeds, creates one
    session with the retry policy of [max_retries] (3 by default) and the
    bearer header of that credential, and resolves the base URL in this
    order: a non-empty argument, then the variable [COMPUTEHIVE_API_URL]
    when it is set (an empty value included), then the default. *)
Theorem init_resolves url_arg key_arg timeout_arg retries_arg key w :
  key <> "" ->
  key_arg = Some key \/
  ((key_arg = None \/ key_arg = Some "") /\ environ w !! "COMPUTEHIVE_API_KEY" = Some key) ->
  exists client,
    __init__ url_arg key_arg timeout_arg retries_arg w =
      (Ok client, emit (EvSession (Retry_new (default 3 retries_arg) 1 RETRY_STATUSES)) w) /\
    api_key client = key /\
    session client = {| session_headers := client_headers key;
                        max_retries := Retry_new (default 3 retries_arg) 1 RETRY_STATUSES |} /\
    timeout client = default 30 timeout_arg /\
    (forall u, url_arg = Some u -> u <> "" -> api_url client = u) /\
    (forall u, url_arg = None \/ url_arg = Some "" ->
               environ w !! "COMPUTEHIVE_API_URL" = Some u -> api_url client = u) /\
    (url_arg = None \/ url_arg = Some "" ->
     environ w !! "COMPUTEHIVE_API_URL" = None ->
     api_url client = "https://api.computehive.io").
Proof.
  intros Hkey Hsrc.
  assert (Hor : or_str key_arg (environ w !! "COMPUTEHIVE_API_KEY") = Some key).
  { destruct Hsrc as [-> | [[-> | ->] ->]]; simpl; try reflexivity.
    destruct (String.eqb_spec key ""); [contradiction | reflexivity]. }
  unfold __init__, bind, os_getenv. rewrite Hor.
  destruct key as [|a key']; [contradiction|].
  eexists. split; [reflexivity|]. simpl.
  split; [reflexivity|]. split; [reflexivity|]. split; [reflexivity|].
  split; [|split].
  - intros u -> Hu. simpl. destruct (String.eqb_spec u ""); [contradiction | reflexivity].
  - intros u [-> | ->] ->; reflexivity.
  - intros [-> | ->] ->; reflexivity.
Qed.

(** The key from the argument with the variable set to something else, and
    an empty [COMPUTEHIVE_API_URL]. *)
Lemma init_resolves_witness :
  exists client,
    fst (__init__ None (Some "mine") None None
           (world0 accepting_server
              (<["COMPUTEHIVE_API_URL" := ""]> key_env))) = Ok client /\
    api_key client = "mine" /\ api_url client = "".
Proof.
  destruct (init_resolves None (Some "mine") None None "mine"
              (world0 accepting_server (<["COMPUTEHIVE_API_URL" := ""]> key_env)))
    as (client & Hrun & Hk & _ & _ & _ & Henv & _).
  - discriminate.
  - left. reflexivity.
  - exists client. rewrite Hrun. split; [reflexivity|]. split; [exact Hk|].
    apply Henv; [left; reflexivity | reflexivity].
Defined.

(** ** Query maps without a guard *)

(** X8.  [list_jobs] always sends [limit] and [offset] (100 and 0 by
    default, and a given 0 is sent as 0) and sends [status], as the
    lowercase value of the enum, exactly when one is given; [get_agents]
    always sends [active], [False] included. *)
Theorem unguarded_query_parameters self status limit offset active_only w :
  (exists rest,
     trace (snd (list_jobs self status limit offset w)) =
       trace w ++
       EvHttp (request_of self "GET" "/api/v1/jobs" None
                 (Some ([("limit", VInt (default 100 limit));
                         ("offset", VInt (default 0 offset))] ++
                        match status with
                        | Some s => [("status", VStr (JobStatus_value s))]
                        | None => []
                        end))) :: rest) /\
  (exists rest,
     trace (snd (get_agents self active_only w)) =
       trace w ++
       EvHttp (request_of self "GET" "/api/v1/agents" None
                 (Some [("active", VBool (default true active_only))])) :: rest).
Proof.
  split.
  - unfold list_jobs. destruct status; apply make_request_sends.
  - unfold get_agents. apply make_request_sends.
Qed.

(** ** Wire form of the dataclasses *)

Lemma drop_none_absent d k :
  ~ In k (map fst d) -> dict_get (drop_none d) k = None.
Proof.
  induction d as [|[k' v] d IH]; intros Hnot; [reflexivity|].
  simpl in Hnot. unfold drop_none in *. simpl.
  destruct (is_none v); simpl.
  - apply IH. tauto.
  - destruct (String.eqb_spec k' k); [subst; tauto | apply IH; tauto].
Qed.

(** On a dict with distinct keys, dropping [None] values keeps every other
    binding and nothing else. *)
Lemma drop_none_get d k v :
  List.NoDup (map fst d) ->
  dict_get (drop_none d) k = Some v <-> dict_get d k = Some v /\ is_none v = false.
Proof.
  induction d as [|[k' v'] d IH]; intros Hnd.
  - simpl. split; [discriminate | intros [H _]; discriminate].
  - inversion Hnd as [|? ? Hnot Hnd']; subst. specialize (IH Hnd').
    unfold drop_none in *. simpl.
    destruct (String.eqb_spec k' k) as [-> | Hne].
    + destruct (is_none v') eqn:Hn; simpl.
      * fold (drop_none d). rewrite (drop_none_absent d k Hnot).
        split; [discriminate|]. intros [H Hv]. inversion H; subst. congruence.
      * rewrite String.eqb_refl. split.
        -- intros H; inversion H; subst. auto.
        -- intros [H _]. exact H.
    + destruct (is_none v') eqn:Hn; simpl.
      * exact IH.
      * destruct (String.eqb_spec k' k); [contradiction | exact IH].
Qed.

Lemma is_none_false v : is_none v = false <-> v <> VNone.
Proof. destruct v; simpl; split; congruence. Qed.

(** X9.  The wire form of each dataclass binds a key exactly when the
    field is not [None], to the field's value: unset fields are left out,
    nothing is ever sent as [None], and falsy values that are set, such as
    [gpu_count = 0], [trusted_exec = False] or an empty list, are kept. *)
Theorem to_dict_omits_exactly_none :
  (forall r k v,
      dict_get (ResourceRequirements.to_dict r) k = Some v <->
      dict_get (ResourceRequirements.asdict r) k = Some v /\ v <> VNone) /\
  (forall r k v,
      dict_get (SLARequirements.to_dict r) k = Some v <->
      dict_get (SLARequirements.asdict r) k = Some v /\ v <> VNone) /\
  (forall p k v,
      dict_get (JobPayload.to_dict p) k = Some v <->
      dict_get (JobPayload.asdict p) k = Some v /\ v <> VNone) /\
  (forall r,
      dict_get (ResourceRequirements.to_dict r) "gpu_count"
        = Some (VInt (ResourceRequirements.gpu_count r)) /\
      dict_get (ResourceRequirements.to_dict r) "trusted_exec"
        = Some (VBool (ResourceRequirements.trusted_exec r))) /\
  (forall p l,
      JobPayload.args p = Some l ->
      dict_get (JobPayload.to_dict p) "args" = Some (VStrs l)).
Proof.
  split; [|split; [|split; [|split]]].
  - intros r k v. rewrite <- is_none_false. apply drop_none_get.
    simpl. repeat constructor; simpl; intuition discriminate.
  - intros r k v. rewrite <- is_none_false. apply drop_none_get.
    simpl. repeat constructor; simpl; intuition discriminate.
  - intros p k v. rewrite <- is_none_false. apply drop_none_get.
    simpl. repeat constructor; simpl; intuition discriminate.
  - intros r. split.
    + apply drop_none_get; [|split; reflexivity].
      simpl. repeat constructor; simpl; intuition discriminate.
    + apply drop_none_get; [|split; reflexivity].
      simpl. repeat constructor; simpl; intuition discriminate.
  - intros p l Hl. apply drop_none_get.
    + simpl. repeat constructor; simpl; intuition discriminate.
    + simpl. rewrite Hl. split; reflexivity.
Qed.

(** ** Submission envelopes *)

Lemma dict_get_set_same d k v : dict_get (dict_set d k v) k = Some v.
Proof.
  induction d as [|[k' v'] d IH]; cbn [dict_set dict_get].
  - rewrite String.eqb_refl. reflexivity.
  - destruct (String.eqb_spec k' k) as [-> | Hne]; cbn [dict_get].
    + rewrite String.eqb_refl. reflexivity.
    + destruct (String.eqb_spec k' k); [contradiction | exact IH].
Qed.

Lemma dict_get_set_other d k k' v :
  k <> k' -> dict_get (dict_set d k' v) k = dict_get d k.
Proof.
  intros Hne. induction d as [|[k0 v0] d IH]; cbn [dict_set dict_get].
  - destruct (String.eqb_spec k' k); [congruence | reflexivity].
  - destruct (String.eqb_spec k0 k') as [-> | Hne0]; cbn [dict_get].
    + destruct (String.eqb_spec k' k); [congruence | reflexivity].
    + destruct (String.eqb_spec k0 k); [reflexivity | exact IH].
Qed.

(** X10.  [submit_job] posts its envelope to [/api/v1/jobs].  The envelope
    has the key [sla_requirements] exactly when an SLA object is passed,
    bound to the object's wire form: an SLA object with no field set is
    still sent, as the empty object.  The six other keys do not depend on
    the SLA. *)
Theorem submit_job_sla self job_type requirements payload kwargs w :
  (exists rest,
     trace (snd (submit_job self job_type requirements payload kwargs w)) =
       trace w ++
       EvHttp (request_of self "POST" "/api/v1/jobs"
                 (Some (VDict (submit_job_data job_type requirements payload kwargs)))
                 None) :: rest) /\
  dict_get (submit_job_data job_type requirements payload kwargs) "sla_requirements" =
    option_map (fun sla => VDict (SLARequirements.to_dict sla)) (kw_sla_requirements kwargs) /\
  SLARequirements.to_dict empty_sla = [] /\
  (forall k, k <> "sla_requirements" ->
     dict_get (submit_job_data job_type requirements payload kwargs) k =
     dict_get (submit_job_data job_type requirements payload
                 {| kw_priority := kw_priority kwargs; kw_timeout := kw_timeout kwargs;
                    kw_max_retries := kw_max_retries kwargs;
                    kw_sla_requirements := None |}) k).
Proof.
  split; [|split; [|split]].
  - unfold submit_job. apply make_request_sends.
  - unfold submit_job_data. destruct (kw_sla_requirements kwargs); reflexivity.
  - reflexivity.
  - intros k Hk. unfold submit_job_data. cbn [kw_sla_requirements].
    destruct (kw_sla_requirements kwargs); [|reflexivity].
    apply dict_get_set_other. exact Hk.
Qed.

Lemma eq_prefix_split k1 : forall k2 v1 v2,
  has_char "=" k1 = false -> has_char "=" k2 = false ->
  k1 +:+ "=" +:+ v1 = k2 +:+ "=" +:+ v2 ->
  k1 = k2 /\ v1 = v2.
Proof.
  induction k1 as [|a k1 IH]; intros [|b k2] v1 v2 H1 H2 Heq; simpl in *.
  - inversion Heq. auto.
  - inversion Heq; subst. apply orb_false_elim in H2. destruct H2 as [H2 _].
    rewrite Ascii.eqb_refl in H2. discriminate.
  - inversion Heq; subst. apply orb_false_elim in H1. destruct H1 as [H1 _].
    rewrite Ascii.eqb_refl in H1. discriminate.
  - inversion Heq; subst.
    apply orb_false_elim in H1. apply orb_false_elim in H2.
    destruct (IH k2 v1 v2) as [-> ->]; tauto.
Qed.

(** X11.  The flattening of [env] to [KEY=VALUE] strings keeps the order
    and loses nothing as long as no key contains the character [=]: two
    such mappings with the same flattening are the same.  A key with [=]
    in it breaks this: [{"A": "1=2"}] and [{"A=1": "2"}] both flatten to
    [A=1=2]. *)
Theorem env_list_injective env1 env2 :
  Forall (fun kv => has_char "=" (fst kv) = false) env1 ->
  Forall (fun kv => has_char "=" (fst kv) = false) env2 ->
  env_list (Some env1) = env_list (Some env2) ->
  env1 = env2 /\
  env_list (Some [("A", "1=2")]) = env_list (Some [("A=1", "2")]).
Proof.
  intros H1 H2 Heq. split; [|reflexivity].
  unfold env_list in Heq. simpl in Heq.
  revert env2 H2 Heq.
  induction H1 as [|[k1 v1] env1 Hk1 _ IH]; intros env2 H2 Heq.
  - destruct env2; [reflexivity | discriminate].
  - destruct H2 as [|[k2 v2] env2 Hk2 H2]; [discriminate|].
    simpl in Heq. inversion Heq as [[Hhead Htail]].
    destruct (eq_prefix_split k1 k2 v1 v2 Hk1 Hk2 Hhead) as [-> ->].
    f_equal. apply IH; assumption.
Qed.

Lemma env_list_injective_witness :
  [("PATH", "/bin"); ("MODE", "a=b")] = [("PATH", "/bin"); ("MODE", "a=b")] /\
  env_list (Some [("A", "1=2")]) = env_list (Some [("A=1", "2")]).
Proof.
  apply (env_list_injective [("PATH", "/bin"); ("MODE", "a=b")]
                            [("PATH", "/bin"); ("MODE", "a=b")]).
  - repeat constructor.
  - repeat constructor.
  - reflexivity.
Defined.

(** X12.  [submit_script_job] posts an envelope of type [script] whose
    payload holds [script] and [language] and nothing else (no field of
    the container or binary variants), and whose requirements are the
    given [cpu_cores] and [memory_mb] (1 and 1024 by default) with no GPU
    and the dataclass defaults. *)
Theorem script_submission_body self script language cpu_cores memory_mb kwargs w :
  exists body rest,
    trace (snd (submit_script_job self script language cpu_cores memory_mb kwargs w)) =
      trace w ++
      EvHttp (request_of self "POST" "/api/v1/jobs" (Some (VDict body)) None) :: rest /\
    dict_get body "type" = Some (VStr "script") /\
    dict_get body "payload" =
      Some (VDict [("script", VStr script); ("language", VStr language)]) /\
    dict_get body "requirements" =
      Some (VDict (helper_requirements (default 1 cpu_cores) (default 1024 memory_mb) 0)).
Proof.
  unfold submit_script_job, submit_job.
  destruct (make_request_sends self "POST" "/api/v1/jobs"
              (Some (VDict (submit_job_data SCRIPT
                 (ResourceRequirements.make (default 1 cpu_cores) (default 1024 memory_mb) None)
                 {| JobPayload.image := None; JobPayload.command := None;
                    JobPayload.env := None; JobPayload.binary_url := None;
                    JobPayload.args := None; JobPayload.script := Some script;
                    JobPayload.language := Some language;
                    JobPayload.input_data := None; JobPayload.output_path := None |}
                 kwargs))) None w) as [rest Hrest].
  eexists _, rest. split; [exact Hrest|].
  unfold submit_job_data. destruct (kw_sla_requirements kwargs); repeat split; reflexivity.
Qed.

(** X13.  Through [submit_docker_job] only the three counts of the
    resource record can be chosen: the envelope's requirements are always
    [cpu_cores], [memory_mb], [gpu_count] and the defaults
    [storage_mb = 1024], [network_mbps = 100], [trusted_exec = False], with
    neither [gpu_type] nor [capabilities], also when [gpu_count > 0]; and
    the payload is exactly [image], [command] and [env]. *)
Theorem docker_submission_shape self image command cpu_cores memory_mb gpu_count env kwargs w :
  exists body rest,
    trace (snd (submit_docker_job self image command cpu_cores memory_mb gpu_count
                  env kwargs w)) =
      trace w ++
      EvHttp (request_of self "POST" "/api/v1/jobs" (Some (VDict body)) None) :: rest /\
    dict_get body "requirements" =
      Some (VDict (helper_requirements (default 1 cpu_cores) (default 1024 memory_mb)
                     (default 0 gpu_count))) /\
    dict_get (helper_requirements (default 1 cpu_cores) (default 1024 memory_mb)
                (default 0 gpu_count)) "gpu_type" = None /\
    dict_get body "payload" =
      Some (VDict [("image", VStr image); ("command", VStrs command);
                   ("env", VStrs (env_list env))]).
Proof.
  destruct (submit_docker_job_sends self image command cpu_cores memory_mb gpu_count
              env kwargs w) as [rest Hrest].
  eexists _, rest. split; [exact Hrest|].
  unfold submit_job_data. destruct (kw_sla_requirements kwargs); repeat split; reflexivity.
Qed.

(** ** Edges of the polling loop *)

(** X14.  With a [timeout] that is zero or negative the loop body never
    runs: [wait_for_job] raises the deadline [JobError] at once, and the
    world is as before (no probe, no callback, no sleep), whatever the
    state of the job. *)
Theorem wait_for_job_nonpositive_timeout self job_id timeout poll_interval callback fuel w :
  timeout <= 0 ->
  (1 <= fuel)%nat ->
  wait_for_job fuel self job_id (Some timeout) poll_interval callback w =
    Some (Raise (JobError (timeout_message job_id timeout)), w).
Proof.
  intros Ht Hfuel. destruct fuel as [|fuel]; [lia|].
  unfold wait_for_job. simpl default. rewrite wait_loop_unfold.
  destruct (Z.ltb_spec (now w - now w) timeout); [lia | reflexivity].
Qed.

(** The job is already [completed], the timeout is 0. *)
Lemma wait_for_job_nonpositive_timeout_witness :
  wait_for_job 1 (demo_client 3) "j1" (Some 0) None (Some watch)
               (world0 (quick_server "completed") key_env) =
    Some (Raise (JobError "Job j1 did not complete within 0 seconds"),
          world0 (quick_server "completed") key_env).
Proof.
  apply (wait_for_job_nonpositive_timeout (demo_client 3) "j1" 0 None (Some watch) 1
           (world0 (quick_server "completed") key_env)); lia.
Defined.

(** X15.  With a negative [poll_interval], the first probe that sees a
    record which is not terminal ends the wait with the [ValueError] of
    [time.sleep], after the probe and the callback. *)
Theorem wait_for_job_negative_poll self job_id timeout poll_interval callback fuel w job dt :
  constructed self ->
  answers w (sent w) job dt ->
  job_terminal job = Some false ->
  observes callback job ->
  poll_interval < 0 ->
  0 < timeout ->
  (1 <= fuel)%nat ->
  wait_for_job fuel self job_id (Some timeout) (Some poll_interval) callback w =
    Some (Raise (ValueError "sleep length must be non-negative"),
          probed self job_id callback job dt w).
Proof.
  intros Hc Ha Ht Ho Hp Htime Hfuel. destruct fuel as [|fuel]; [lia|].
  unfold wait_for_job. simpl default. rewrite wait_loop_unfold.
  destruct (Z.ltb_spec (now w - now w) timeout); [|lia].
  unfold poll_once, bind.
  rewrite (get_job_ok _ _ _ _ _ Hc Ha), (call_callback_observes _ _ _ Ho).
  destruct (job_terminal_status _ _ Ht) as (st & Hst & Hterm).
  unfold lift. rewrite Hst, Hterm. unfold time_sleep.
  destruct (Z.ltb_spec poll_interval 0); [|lia].
  unfold probed. destruct callback; reflexivity.
Qed.

Lemma wait_for_job_negative_poll_witness :
  wait_for_job 5 (demo_client 3) "j1" (Some 60) (Some (-1)) None
               (world0 forever_running key_env) =
    Some (Raise (ValueError "sleep length must be non-negative"),
          probed (demo_client 3) "j1" None (job_record "j1" "running") 0
                 (world0 forever_running key_env)).
Proof.
  apply (wait_for_job_negative_poll (demo_client 3) "j1" 60 (-1) None 5
           (world0 forever_running key_env) (job_record "j1" "running") 0
           (demo_client_constructed 3)).
  - intros req. eexists. repeat split; reflexivity.
  - reflexivity.
  - exact I.
  - lia.
  - lia.
  - lia.
Defined.

(** X16.  A probe answered with JSON that is not an object (a list, a
    string, a number, null) ends the wait with [AttributeError], after the
    callback has been called on that value. *)
Theorem wait_for_job_not_an_object self job_id timeout poll_interval callback fuel w v dt :
  constructed self ->
  answers w (sent w) v dt ->
  (forall d, v <> VDict d) ->
  observes callback v ->
  0 < timeout ->
  (1 <= fuel)%nat ->
  exists msg,
    wait_for_job fuel self job_id (Some timeout) (Some poll_interval) callback w =
      Some (Raise (AttributeError msg), probed self job_id callback v dt w).
Proof.
  intros Hc Ha Hv Ho Htime Hfuel. destruct fuel as [|fuel]; [lia|].
  unfold wait_for_job. simpl default. rewrite wait_loop_unfold.
  destruct (Z.ltb_spec (now w - now w) timeout); [|lia].
  unfold poll_once, bind.
  rewrite (get_job_ok _ _ _ _ _ Hc Ha), (call_callback_observes _ _ _ Ho).
  unfold lift, probed.
  destruct v; try (destruct callback; eexists; reflexivity).
  exfalso. apply (Hv d). reflexivity.
Qed.

(** A platform that answers every probe with a JSON list. *)
Lemma wait_for_job_not_an_object_witness :
  exists msg,
    wait_for_job 5 (demo_client 3) "j1" (Some 60) (Some 5) (Some watch)
                 (world0 (fun _ _ => (Answer (ok_response (VList [])), 0)) key_env) =
      Some (Raise (AttributeError msg),
            probed (demo_client 3) "j1" (Some watch) (VList []) 0
                   (world0 (fun _ _ => (Answer (ok_response (VList [])), 0)) key_env)).
Proof.
  apply (wait_for_job_not_an_object (demo_client 3) "j1" 60 5 (Some watch) 5
           (world0 (fun _ _ => (Answer (ok_response (VList [])), 0)) key_env) (VList []) 0
           (demo_client_constructed 3)).
  - intros req. eexists. repeat split; reflexivity.
  - intros d. discriminate.
  - reflexivity.
  - lia.
  - lia.
Defined.

(** One turn of the loop sends the request of [get_job], and nothing else. *)
Lemma poll_once_requests self job_id poll_interval callback w :
  exists k,
    (1 <= k)%nat /\
    requests_of (trace (snd (poll_once self job_id poll_interval callback w))) =
      requests_of (trace w) ++ repeat (job_request self job_id) k /\
    sent (snd (poll_once self job_id poll_interval callback w)) = (sent w + k)%nat.
Proof.
  unfold poll_once, bind, get_job.
  pose proof (make_request_world self "GET" ("/api/v1/jobs/" +:+ job_id) None None w) as Hw.
  destruct (urlopen_requests (Z.to_nat (total (max_retries (session self))))
              (max_retries (session self)) (job_request self job_id) w)
    as (k & [Hk _] & Hreq & Hsent).
  unfold job_request in *. rewrite <- Hw in Hreq, Hsent.
  exists k. split; [exact Hk|].
  destruct (_make_request self "GET" ("/api/v1/jobs/" +:+ job_id) None None w)
    as [[job|e] w1]; simpl in Hreq, Hsent; [|split; assumption].
  assert (Hcb : requests_of (trace (snd (call_callback callback job w1))) =
                requests_of (trace w1) /\
                sent (snd (call_callback callback job w1)) = sent w1).
  { unfold call_callback. destruct callback; simpl; [|split; reflexivity].
    rewrite requests_of_app. simpl. rewrite app_nil_r. split; reflexivity. }
  destruct (call_callback callback job w1) as [[job'|e] w2]; simpl in Hcb;
    destruct Hcb as [Hcb1 Hcb2]; [|simpl; rewrite Hcb1, Hcb2; split; assumption].
  unfold lift. destruct (py_get job' "status") as [st|e];
    [|simpl; rewrite Hcb1, Hcb2; split; assumption].
  destruct (is_terminal st); [simpl; rewrite Hcb1, Hcb2; split; assumption|].
  unfold time_sleep. destruct (poll_interval <? 0); simpl;
    rewrite ?requests_of_app; simpl; rewrite ?app_nil_r, Hcb1, Hcb2; split; assumption.
Qed.

Lemma wait_loop_requests fuel :
  forall self job_id timeout poll_interval callback start_time w r w',
  wait_loop fuel self job_id timeout poll_interval callback start_time w = Some (r, w') ->
  exists k,
    requests_of (trace w') = requests_of (trace w) ++ repeat (job_request self job_id) k /\
    sent w' = (sent w + k)%nat /\
    (forall job, r = Ok job -> (1 <= k)%nat /\ now w - start_time < timeout).
Proof.
  induction fuel as [|fuel IH]; intros self job_id timeout poll_interval callback
    start_time w r w' H; [discriminate|].
  rewrite wait_loop_unfold in H.
  destruct (Z.ltb_spec (now w - start_time) timeout) as [Hlt|Hge].
  - destruct (poll_once_requests self job_id poll_interval callback w)
      as (k & Hk & Hreq & Hsent).
    destruct (poll_once self job_id poll_interval callback w) as [[[j|]|e] w1];
      simpl in Hreq, Hsent.
    + inversion H; subst. exists k. repeat split; try assumption.
    + destruct (IH _ _ _ _ _ _ _ _ _ H) as (k' & Hreq' & Hsent' & Hok).
      exists (k + k')%nat. rewrite Hreq', Hreq, Hsent', Hsent, repeat_app, <- app_assoc.
      repeat split; try lia.
    + inversion H; subst. exists k. repeat split; try assumption; discriminate.
  - inversion H; subst. exists 0%nat. simpl. rewrite app_nil_r.
    repeat split; try lia; discriminate.
Qed.

(** X17.  Whenever [wait_for_job] returns a record, the deadline was in the
    future when it started, the record was fetched by at least one probe,
    and it is a JSON object whose [status] is exactly one of the strings
    [completed], [failed], [cancelled]: no other status, spelling or type
    ends the wait with a result. *)
Theorem wait_for_job_returns_only_terminal fuel self job_id timeout poll_interval callback
    w job w' :
  wait_for_job fuel self job_id (Some timeout) (Some poll_interval) callback w
    = Some (Ok job, w') ->
  0 < timeout /\ (sent w < sent w')%nat /\
  exists d status,
    job = VDict d /\ dict_get d "status" = Some (VStr status) /\
    (status = "completed" \/ status = "failed" \/ status = "cancelled").
Proof.
  intros H. unfold wait_for_job in H. simpl default in H.
  destruct (wait_loop_requests _ _ _ _ _ _ _ _ _ _ H) as (k & _ & Hsent & Hok).
  destruct (Hok job eq_refl) as [Hk Hnow].
  split; [lia|]. split; [lia|].
  destruct (terminal_status job (wait_loop_returns_terminal _ _ _ _ _ _ _ _ _ _ H))
    as (status & Hstatus & Hin).
  destruct job; try discriminate. exists d, status. split; [reflexivity|].
  simpl in Hstatus. destruct (dict_get d "status") as [v|]; [|discriminate].
  inversion Hstatus; subst. split; [reflexivity|].
  simpl in Hin. intuition.
Qed.

Lemma wait_for_job_returns_only_terminal_witness :
  0 < 3600 /\ (0 < 3)%nat /\
  exists d status,
    job_record "j1" "completed" = VDict d /\ dict_get d "status" = Some (VStr status) /\
    (status = "completed" \/ status = "failed" \/ status = "cancelled").
Proof.
  apply (wait_for_job_returns_only_terminal 10 (demo_client 3) "j1" 3600 5 (Some watch)
           (world0 three_probes key_env) (job_record "j1" "completed")
           {| now := 1010; environ := key_env; server := three_probes; sent := 3;
              trace := [EvHttp (job_request (demo_client 3) "j1");
                        EvCallback (job_record "j1" "running"); EvSleep 5;
                        EvHttp (job_request (demo_client 3) "j1");
                        EvCallback (job_record "j1" "running"); EvSleep 5;
                        EvHttp (job_request (demo_client 3) "j1");
                        EvCallback (job_record "j1" "completed")] |}).
  vm_compute. reflexivity.
Defined.

(** X18.  [wait_for_job] only reads.  Against a server that does not
    redirect, however the call ends (a record, the deadline, an error),
    every request it has put on the wire is the GET of
    [/api/v1/jobs/{id}]: in particular a job that runs into the deadline
    is not cancelled.  (A callback is a function of the record here: what
    user code sends on its own is not part of the statement.) *)
Theorem wait_for_job_only_probes fuel self job_id timeout poll_interval callback w r w' :
  never_redirected w ->
  wait_for_job fuel self job_id timeout poll_interval callback w = Some (r, w') ->
  exists k,
    requests_of (trace w') = requests_of (trace w) ++ repeat (job_request self job_id) k /\
    sent w' = (sent w + k)%nat /\
    method (job_request self job_id) = "GET" /\
    url (job_request self job_id) = api_url self +:+ "/api/v1/jobs/" +:+ job_id.
Proof.
  intros _ H. unfold wait_for_job in H.
  destruct (wait_loop_requests _ _ _ _ _ _ _ _ _ _ H) as (k & Hreq & Hsent & _).
  exists k. repeat split; assumption.
Qed.

(** The job that never finishes, up to the deadline: two probes, no POST. *)
Lemma wait_for_job_only_probes_witness :
  exists w',
    wait_for_job 20 (demo_client 3) "j1" (Some 10) (Some 5) None
                 (world0 forever_running key_env)
      = Some (Raise (JobError "Job j1 did not complete within 10 seconds"), w') /\
    exists k,
      requests_of (trace w') = repeat (job_request (demo_client 3) "j1") k /\
      sent w' = k.
Proof.
  eexists. split; [vm_compute; reflexivity|].
  destruct (wait_for_job_only_probes 20 (demo_client 3) "j1" (Some 10) (Some 5) None
              (world0 forever_running key_env) _ _
              ltac:(intros k req r dt H; inversion H; subst; simpl; lia) eq_refl)
    as (k & Hreq & Hsent & _).
  exists k. split; [exact Hreq | exact Hsent].
Defined.

(** ** Edges of the one-shot helper *)

(** X19.  Without a credential (argument absent or empty, variable absent
    or empty) [quick_run_docker] raises the [AuthenticationError] of the
    constructor before anything is submitted: the world is as before. *)
Theorem quick_run_docker_without_key py_str fuel image command key_arg wait kwargs w :
  key_arg = None \/ key_arg = Some "" ->
  environ w !! "COMPUTEHIVE_API_KEY" = None \/ environ w !! "COMPUTEHIVE_API_KEY" = Some "" ->
  quick_run_docker py_str fuel image command key_arg wait kwargs w =
    Some (Raise (AuthenticationError missing_key_message), w).
Proof.
  intros Hk He. unfold quick_run_docker, bindF, liftF, create_client.
  assert (Hinit : __init__ None key_arg None None w =
                  (Raise (AuthenticationError missing_key_message), w)).
  { unfold __init__, bind, os_getenv.
    destruct Hk as [-> | ->], He as [-> | ->]; reflexivity. }
  rewrite Hinit. reflexivity.
Qed.

Lemma quick_run_docker_without_key_witness :
  quick_run_docker str_scalar 10 "img" ["echo"; "hi"] None true no_docker_kwargs
                   (world0 accepting_server ∅) =
    Some (Raise (AuthenticationError missing_key_message), world0 accepting_server ∅).
Proof.
  apply (quick_run_docker_without_key str_scalar 10 "img" ["echo"; "hi"] None true
           no_docker_kwargs (world0 accepting_server ∅)); left; reflexivity.
Defined.

(** X20.  When the platform accepts the submission with a record that has
    no [id], [quick_run_docker] with [wait=True] raises [KeyError] for
    [id] after the job was submitted: nothing is printed, polled or
    fetched, and the world is the one the submission left.  With
    [wait=False] the same record is returned. *)
Theorem quick_run_docker_missing_id py_str fuel image command key_arg kwargs w client w0 d w1 :
  create_client key_arg w = (Ok client, w0) ->
  submit_docker_job client image command (kw_cpu_cores kwargs) (kw_memory_mb kwargs)
    (kw_gpu_count kwargs) (kw_env kwargs) (kw_submit kwargs) w0 = (Ok (VDict d), w1) ->
  dict_get d "id" = None ->
  quick_run_docker py_str fuel image command key_arg true kwargs w =
    Some (Raise (KeyError "id"), w1) /\
  quick_run_docker py_str fuel image command key_arg false kwargs w =
    Some (Ok (VDict d), w1) /\
  (sent w0 < sent w1)%nat.
Proof.
  intros Hcreate Hsubmit Hid. split; [|split].
  - unfold quick_run_docker, bindF, liftF. rewrite Hcreate, Hsubmit.
    unfold lift. simpl. rewrite Hid. reflexivity.
  - unfold quick_run_docker, bindF, liftF. rewrite Hcreate, Hsubmit. reflexivity.
  - unfold submit_docker_job, submit_job in Hsubmit.
    match type of Hsubmit with
    | _make_request ?s ?m ?e ?b ?q ?w = _ =>
        destruct (urlopen_requests (Z.to_nat (total (max_retries (session s))))
                    (max_retries (session s)) (request_of s m e b q) w)
          as (k & [Hk _] & _ & Hsent);
        rewrite <- (make_request_world s m e b q w) in Hsent
    end.
    rewrite Hsubmit in Hsent. simpl in Hsent. lia.
Qed.

(** A platform that answers the submission with an empty object. *)
Lemma quick_run_docker_missing_id_witness :
  exists w1,
    quick_run_docker str_scalar 10 "img" ["echo"; "hi"] None true no_docker_kwargs
                     (world0 (fun _ _ => (Answer (ok_response (VDict [])), 0)) key_env) =
      Some (Raise (KeyError "id"), w1) /\
    sent w1 = 1%nat.
Proof.
  edestruct (quick_run_docker_missing_id str_scalar 10 "img" ["echo"; "hi"] None
               no_docker_kwargs
               (world0 (fun _ _ => (Answer (ok_response (VDict [])), 0)) key_env))
    as (Hwait & _ & _);
    [vm_compute; reflexivity | vm_compute; reflexivity | reflexivity |].
  eexists. split; [exact Hwait | reflexivity].
Defined.

(** ** More on the transport and the callback *)

(** X21.  An answer with a success status (2xx: 200, 201, 202, ...) whose
    body is JSON is returned decoded after this one exchange, whatever the
    method: the client does not tell 200 from the other success
    statuses. *)
Theorem success_status_returns_body self m endpoint data q w resp dt v :
  constructed self ->
  server w (sent w) (request_of self m endpoint data q) = (Answer resp, dt) ->
  200 <= status_code resp < 300 ->
  body resp = Some v ->
  _make_request self m endpoint data q w =
    (Ok v, exchanged (request_of self m endpoint data q) dt w).
Proof.
  intros Hc Hs Hrange Hbody. destruct (constructed_retry _ Hc) as [r0 Hr0].
  rewrite make_request_unfold, (urlopen_final _ _ _ _ _ _ Hs).
  - cbv zeta. unfold raise_for_status.
    destruct (Z.leb_spec 400 (status_code resp)); [lia|]. simpl.
    destruct (Z.leb_spec 500 (status_code resp)); [lia|]. simpl.
    rewrite Hbody. reflexivity.
  - apply is_retry_other; rewrite ?Hr0; apply not_in_mem_Z; simpl; lia.
Qed.

(** A submission answered with 201 Created. *)
Lemma success_status_returns_body_witness :
  submit_docker_job (demo_client 3) "alpine" ["echo"; "ok"] None None None None no_kwargs
                    (world0 creating_server key_env) =
  (Ok (job_record "j1" "pending"),
   exchanged (request_of (demo_client 3) "POST" "/api/v1/jobs"
                (Some (VDict (submit_job_data DOCKER
                                (ResourceRequirements.make 1 1024 (Some 0))
                                (docker_payload "alpine" ["echo"; "ok"] None) no_kwargs)))
                None) 0
     (world0 creating_server key_env)).
Proof.
  eapply (success_status_returns_body (demo_client 3) "POST" "/api/v1/jobs" _ None
            (world0 creating_server key_env) created_response 0
            (job_record "j1" "pending") (demo_client_constructed 3)).
  - reflexivity.
  - simpl. lia.
  - reflexivity.
Defined.

(** X22.  A retry budget of zero or less switches retries off.  Let the
    request of the call be exchanged with the server, with whatever
    outcome: a failure to connect, or an answer with any status that is
    not a redirection, those of the retry list included.  Then the call
    ends in the world this one exchange left: no second request and no
    back-off sleep. *)
Theorem no_budget_no_retry self m endpoint data q w rep dt :
  total (max_retries (session self)) <= 0 ->
  server w (sent w) (request_of self m endpoint data q) = (rep, dt) ->
  (forall resp, rep = Answer resp -> ~ In (status_code resp) REDIRECT_STATI) ->
  snd (_make_request self m endpoint data q w) =
    exchanged (request_of self m endpoint data q) dt w.
Proof.
  intros Hz Hs _. rewrite make_request_world, urlopen_unfold, (exchange_server _ _ _ _ Hs).
  assert (Hinc : increment (max_retries (session self)) = None).
  { unfold increment. destruct (Z.ltb_spec (total (max_retries (session self)) - 1) 0);
      [reflexivity | lia]. }
  rewrite Hinc. destruct rep as [r | msg]; [|reflexivity].
  destruct (is_retry _ _ _ _); [|reflexivity].
  destruct (raise_on_status _); reflexivity.
Qed.

(** The client built with [max_retries=0] against a server that is always
    busy. *)
Lemma no_budget_no_retry_witness :
  snd (get_job (demo_client 0) "j1" (world0 (stuck_server 503) key_env)) =
    exchanged (job_request (demo_client 0) "j1") 0 (world0 (stuck_server 503) key_env).
Proof.
  apply (no_budget_no_retry (demo_client 0) "GET" "/api/v1/jobs/j1" None None
           (world0 (stuck_server 503) key_env) (Answer (error_response 503 "" "no")) 0).
  - simpl. lia.
  - reflexivity.
  - intros resp H. inversion H; subst. simpl. lia.
Defined.

(** X23.  The callback works on the job dictionary itself, before the
    status is looked at.  So the record that is tested and returned is the
    dictionary as the callback leaves it: a callback that sets a terminal
    status ends the wait at once with that record, whatever the server
    said. *)
Theorem callback_can_end_the_wait self job_id timeout poll_interval cb fuel w job job' dt :
  constructed self ->
  answers w (sent w) job dt ->
  cb job = Ok job' ->
  job_terminal job' = Some true ->
  0 < timeout ->
  (1 <= fuel)%nat ->
  wait_for_job fuel self job_id (Some timeout) (Some poll_interval) (Some cb) w =
    Some (Ok job', emit (EvCallback job) (exchanged (job_request self job_id) dt w)).
Proof.
  intros Hc Ha Hcb Ht Htime Hfuel. destruct fuel as [|fuel]; [lia|].
  unfold wait_for_job. simpl default. rewrite wait_loop_unfold.
  destruct (Z.ltb_spec (now w - now w) timeout); [|lia].
  unfold poll_once, bind. rewrite (get_job_ok _ _ _ _ _ Hc Ha).
  unfold call_callback. rewrite Hcb.
  destruct (job_terminal_status _ _ Ht) as (st & Hst & Hterm).
  unfold lift. rewrite Hst, Hterm. reflexivity.
Qed.

(** A callback that marks every record as [cancelled], on a job that the
    server reports as [running]. *)
Lemma callback_can_end_the_wait_witness :
  wait_for_job 5 (demo_client 3) "j1" (Some 60) (Some 5)
               (Some (fun _ => Ok (job_record "j1" "cancelled")))
               (world0 forever_running key_env) =
    Some (Ok (job_record "j1" "cancelled"),
          emit (EvCallback (job_record "j1" "running"))
            (exchanged (job_request (demo_client 3) "j1") 0
                       (world0 forever_running key_env))).
Proof.
  apply (callback_can_end_the_wait (demo_client 3) "j1" 60 5
           (fun _ => Ok (job_record "j1" "cancelled")) 5
           (world0 forever_running key_env) (job_record "j1" "running")
           (job_record "j1" "cancelled") 0 (demo_client_constructed 3)).
  - intros req. eexists. repeat split; reflexivity.
  - reflexivity.
  - reflexivity.
  - lia.
  - lia.
Defined.
